(** * any_doc_to_txt_converter: the batch execution engine

    A shallow embedding of the Python sources

      - [converters/base.py]       (BaseConverter)
      - [converters/factory.py]    (ConverterFactory)
      - [converters/mobi_converter.py] (MOBIConverter)
      - [core/batch_processor.py]  (ConversionResult, BatchProcessor)
      - [config/settings.py]       (Config._validate_config)

    and of the properties of the batch engine: one result per task, failure
    isolation, the cap of the pool, discovery and its overwrite policy, the
    report, the fallback of the MOBI converter.

    Python code that raises is embedded in a state-and-exception monad over
    a [world] made of a directory tree and the records of the
    ['doc_converter'] logger.  The third-party parsers (PyPDF2, python-docx,
    mobi, BeautifulSoup, ...), the UTF-8 decoder and the float formatting
    of the report are collaborators of the program and appear as the fields
    of the class [External]; every property holds for all of them.

    The thread pool is a function of a schedule that picks, among the
    calls in flight, the one that completes next; the call of a task takes
    effect on the world when it completes.  The progress bar only observes
    the results and is left out. *)

From stdpp Require Import gmap strings list.
From Stdlib Require Import Ascii String ZArith QArith DecimalString.

Close Scope Q_scope.
Local Open Scope string_scope.
Local Open Scope list_scope.

(* ===================================================================== *)
(** ** Exceptions and results *)
(* ===================================================================== *)

(** An instance of Python's [Exception]: [type(e).__name__] and [str(e)].
    Signals that derive from [BaseException] only (KeyboardInterrupt,
    SystemExit) are delivered to the main thread and are no part of the
    behaviour of a conversion. *)
Record exn := Exn { exn_type : string; exn_msg : string }.

Inductive outcome (A : Type) : Type :=
| Ret (a : A)
| Raise (e : exn).
Arguments Ret {A} a.
Arguments Raise {A} e.

Definition is_ret {A} (o : outcome A) : bool :=
  match o with Ret _ => true | Raise _ => false end.

(* ===================================================================== *)
(** ** Strings: the [str] and [pathlib] operations the code uses *)
(* ===================================================================== *)

Definition newline : string := String (ascii_of_nat 10) "".

(** [c * n] for a one-character string [c]. *)
Fixpoint repeat_char (c : ascii) (n : nat) : string :=
  match n with
  | O => ""
  | S n' => String c (repeat_char c n')
  end.

(** [str(n)] for a non-negative [int]. *)
Definition str_of_nat (n : nat) : string :=
  NilEmpty.string_of_uint (Nat.to_uint n).

(** ["sep".join(l)]. *)
Fixpoint join (sep : string) (l : list string) : string :=
  match l with
  | [] => ""
  | [x] => x
  | x :: l' => x +:+ sep +:+ join sep l'
  end.

(** [str.lower] on a string held as its UTF-8 bytes: the ASCII capitals,
    and KELVIN SIGN (U+212A, the bytes 226 132 170), the one character
    outside ASCII whose lower case is an ASCII letter.  The lower case of
    any other character outside ASCII is outside ASCII too; its bytes are
    left as they are, which no comparison with an ASCII extension sees. *)
Definition lower_ascii (c : ascii) : ascii :=
  let n := nat_of_ascii c in
  if (65 <=? n)%nat && (n <=? 90)%nat then ascii_of_nat (n + 32) else c.

Fixpoint lower (s : string) : string :=
  match s with
  | EmptyString => EmptyString
  | String c s' =>
      match nat_of_ascii c, s' with
      | 226%nat, String c1 (String c2 s'') =>
          if (nat_of_ascii c1 =? 132)%nat && (nat_of_ascii c2 =? 170)%nat
          then String "k" (lower s'')
          else String c (lower s')
      | _, _ => String (lower_ascii c) (lower s')
      end
  end.

(** [s.rfind(c)]: the index of the last occurrence, [None] for Python's -1. *)
Fixpoint rfind (c : ascii) (s : string) : option nat :=
  match s with
  | EmptyString => None
  | String a s' =>
      match rfind c s' with
      | Some i => Some (S i)
      | None => if Ascii.eqb a c then Some 0%nat else None
      end
  end.

(** A path is the list of its components, relative to the working
    directory; [[]] is ["."].  Components are plain names: no [".."], no
    symbolic link. *)
Definition path := list string.

(** [str(p)]. *)
Definition str_path (p : path) : string :=
  match p with
  | [] => "."
  | _ => join "/" p
  end.

(** [PurePath.name]: the last component, [''] for ["."]. *)
Definition name (p : path) : string := List.last p "".

(** [PurePath.parent]. *)
Definition parent (p : path) : path := removelast p.

(** The suffix of a file name as [PurePath.suffix] computes it:
    [i = name.rfind('.')]; [name[i:]] if [0 < i < len(name) - 1], else ['']. *)
Definition name_suffix (nm : string) : string :=
  match rfind "." nm with
  | Some i =>
      if (0 <? i)%nat && (i <? String.length nm - 1)%nat
      then substring i (String.length nm - i) nm
      else ""
  | None => ""
  end.

Definition suffix (p : path) : string := name_suffix (name p).

(** [name[:-len(old_suffix)] + suffix], or [name + suffix] when the name has
    no suffix. *)
Definition name_with_suffix (nm sfx : string) : string :=
  let old := name_suffix nm in
  match old with
  | EmptyString => nm +:+ sfx
  | _ => substring 0 (String.length nm - String.length old) nm +:+ sfx
  end.

Definition ValueError (msg : string) : exn := Exn "ValueError" msg.

(** [PurePath.with_suffix(sfx)]; a path with an empty name is refused. *)
Definition with_suffix (p : path) (sfx : string) : outcome path :=
  if bool_decide (name p = "")
  then Raise (ValueError ("PosixPath('" +:+ str_path p +:+ "') has an empty name"))
  else Ret (parent p ++ [name_with_suffix (name p) sfx]).

(** [p.relative_to(other)]. *)
Fixpoint strip_prefix (other p : path) : option path :=
  match other, p with
  | [], _ => Some p
  | a :: other', b :: p' => if bool_decide (a = b) then strip_prefix other' p' else None
  | _ :: _, [] => None
  end.

Definition relative_to (p other : path) : outcome path :=
  match strip_prefix other p with
  | Some rel => Ret rel
  | None =>
      Raise (ValueError ("'" +:+ str_path p +:+ "' is not in the subpath of '"
                          +:+ str_path other +:+ "'"))
  end.

(* ===================================================================== *)
(** ** The file system *)
(* ===================================================================== *)

(** A directory lists its entries in the order [os.scandir] reports them. *)
#[warnings="-register-all"]
Inductive node : Type :=
| File (content : string)
| Dir (entries : list (string * node)).

Definition is_dir_node (n : node) : bool :=
  match n with Dir _ => true | File _ => false end.

Definition is_file_node (n : node) : bool :=
  match n with File _ => true | Dir _ => false end.

Fixpoint entry (nm : string) (es : list (string * node)) : option node :=
  match es with
  | [] => None
  | (k, n) :: es' => if bool_decide (k = nm) then Some n else entry nm es'
  end.

(** Replace the entry called [nm], or add it at the end. *)
Fixpoint set_entry (nm : string) (n : node) (es : list (string * node))
  : list (string * node) :=
  match es with
  | [] => [(nm, n)]
  | (k, m) :: es' =>
      if bool_decide (k = nm) then (k, n) :: es' else (k, m) :: set_entry nm n es'
  end.

Fixpoint fs_lookup (n : node) (p : path) : option node :=
  match p with
  | [] => Some n
  | c :: p' =>
      match n with
      | Dir es =>
          match entry c es with
          | Some child => fs_lookup child p'
          | None => None
          end
      | File _ => None
      end
  end.

(** [Path.exists], [Path.is_file], [Path.is_dir]. *)
Definition Path_exists (t : node) (p : path) : bool :=
  match fs_lookup t p with Some _ => true | None => false end.

Definition Path_is_file (t : node) (p : path) : bool :=
  match fs_lookup t p with Some (File _) => true | _ => false end.

Definition Path_is_dir (t : node) (p : path) : bool :=
  match fs_lookup t p with Some (Dir _) => true | _ => false end.

Definition OSError (cls errno what : string) (p : path) : exn :=
  Exn cls ("[Errno " +:+ errno +:+ "] " +:+ what +:+ ": '" +:+ str_path p +:+ "'").

Definition FileNotFoundError := OSError "FileNotFoundError" "2" "No such file or directory".
Definition FileExistsError := OSError "FileExistsError" "17" "File exists".
Definition NotADirectoryError := OSError "NotADirectoryError" "20" "Not a directory".
Definition IsADirectoryError := OSError "IsADirectoryError" "21" "Is a directory".

(** [Path(whole).mkdir(parents=True, exist_ok=True)], followed from the node
    [n] along the remaining components [p]: missing directories are made,
    an existing directory is accepted, a file in the way is an error. *)
Fixpoint makedirs (whole : path) (n : node) (p : path) : outcome node :=
  match p, n with
  | [], Dir _ => Ret n
  | [], File _ => Raise (FileExistsError whole)
  | _ :: _, File _ => Raise (NotADirectoryError whole)
  | c :: p', Dir es =>
      match makedirs whole (default (Dir []) (entry c es)) p' with
      | Ret child => Ret (Dir (set_entry c child es))
      | Raise e => Raise e
      end
  end.

(** [open(whole, 'w', encoding='utf-8')], [f.write(text)] and the close. *)
Fixpoint write_file (whole : path) (text : string) (n : node) (p : path)
  : outcome node :=
  match p, n with
  | [], Dir _ => Raise (IsADirectoryError whole)
  | [], File _ => Ret (File text)
  | _ :: _, File _ => Raise (NotADirectoryError whole)
  | c :: p', Dir es =>
      match entry c es, p' with
      | Some child, _ =>
          match write_file whole text child p' with
          | Ret child' => Ret (Dir (set_entry c child' es))
          | Raise e => Raise e
          end
      | None, [] => Ret (Dir (set_entry c (File text) es))
      | None, _ :: _ => Raise (FileNotFoundError whole)
      end
  end.

(** [open(whole, 'rb')] and [f.read()]. *)
Fixpoint read_file (whole : path) (n : node) (p : path) : outcome string :=
  match p, n with
  | [], File content => Ret content
  | [], Dir _ => Raise (IsADirectoryError whole)
  | _ :: _, File _ => Raise (NotADirectoryError whole)
  | c :: p', Dir es =>
      match entry c es with
      | Some child => read_file whole child p'
      | None => Raise (FileNotFoundError whole)
      end
  end.

Definition dirnames (es : list (string * node)) : list string :=
  map fst (filter (λ e, is_dir_node e.2 = true) es).

Definition filenames (es : list (string * node)) : list string :=
  map fst (filter (λ e, is_file_node e.2 = true) es).

(** [os.walk(top)] (top-down, errors ignored) below a node: one triple
    [(root, dirs, files)] for the directory itself, then the triples of its
    sub-directories in listing order. *)
Fixpoint walk_node (top : path) (n : node) : list (path * list string * list string) :=
  match n with
  | File _ => []
  | Dir es =>
      (top, dirnames es, filenames es) ::
      (fix sub (l : list (string * node)) :=
         match l with
         | [] => []
         | (nm, child) :: l' => walk_node (top ++ [nm]) child ++ sub l'
         end) es
  end.

Definition os_walk (t : node) (top : path) : list (path * list string * list string) :=
  match fs_lookup t top with
  | Some n => walk_node top n
  | None => []
  end.

(* ===================================================================== *)
(** ** The world and the monad of the embedded code *)
(* ===================================================================== *)

Inductive level := DEBUG | INFO | WARNING | ERROR.

(** The directory tree below the working directory and the records handed
    to [logging.getLogger('doc_converter')], oldest first. *)
Record world := World { fs : node; log : list (level * string) }.

Definition M (A : Type) : Type := world -> outcome A * world.

Definition ret {A} (a : A) : M A := fun w => (Ret a, w).

Definition bind {A B} (m : M A) (k : A -> M B) : M B :=
  fun w =>
    match m w with
    | (Ret a, w') => k a w'
    | (Raise e, w') => (Raise e, w')
    end.

Definition raise {A} (e : exn) : M A := fun w => (Raise e, w).

(** [try: body  except Exception as e: handler(e)]. *)
Definition try_except {A} (body : M A) (handler : exn -> M A) : M A :=
  fun w =>
    match body w with
    | (Ret a, w') => (Ret a, w')
    | (Raise e, w') => handler e w'
    end.

Definition lift {A} (o : outcome A) : M A := fun w => (o, w).

Declare Scope py_scope.
Delimit Scope py_scope with py.
Notation "x <- m ;; k" := (bind m (fun x => k))
  (at level 100, m at next level, right associativity) : py_scope.
Notation "m ;; k" := (bind m (fun _ => k))
  (at level 100, right associativity) : py_scope.
Local Open Scope py_scope.

Definition logger (lv : level) (msg : string) : M unit :=
  fun w => (Ret tt, World (fs w) (log w ++ [(lv, msg)])).

(* ===================================================================== *)
(** ** Collaborators outside the repository *)
(* ===================================================================== *)

Inductive converter_class :=
| PDF | DOCX | XLSX | PPTX | HTML | Markdown | EPUB | MOBI | VTT | SRT.

Definition class_name (c : converter_class) : string :=
  match c with
  | PDF => "PDF" | DOCX => "DOCX" | XLSX => "XLSX" | PPTX => "PPTX"
  | HTML => "HTML" | Markdown => "Markdown" | EPUB => "EPUB" | MOBI => "MOBI"
  | VTT => "VTT" | SRT => "SRT"
  end.

Class External := {
  (** The text a format's parsing library (PyPDF2, python-docx, openpyxl,
      python-pptx, BeautifulSoup, markdown, ebooklib) and the converter's
      formatting of it give for the bytes of an input file, or the
      exception they raise; the flag is [preserve_structure]. *)
  parse : converter_class -> bool -> string -> outcome string;
  (** [mobi.extract(input_path)] followed by the read of the unpacked HTML
      file: [None] when the file it names does not exist. *)
  mobi_extract : string -> outcome (option string);
  (** [bytes.decode('utf-8', errors='ignore')]. *)
  decode_utf8_ignore : string -> string;
  (** [f"{q*100:.1f}"] for the float quotient [q]. *)
  format_percent : Q -> string
}.

(* ===================================================================== *)
(** ** The operating system *)
(* ===================================================================== *)

(** The system calls behind the path operations of the code: [os.stat]
    ([Path.exists], [Path.is_file]), [os.mkdir] ([Path.mkdir],
    [os.makedirs]) and [open] for reading and for writing. *)
Inductive syscall := Stat | Mkdir | OpenRead | OpenWrite.

(** The platform a run executes on: the collaborators, and the failures
    of the operating system that the directory tree does not show.

    - [os_error call p]: the [OSError] the call raises on the path [p] for
      a reason outside the tree (a name longer than the file system allows,
      a permission, a read-only file system).  For [Stat] these are the
      errors other than ENOENT, ENOTDIR, EBADF and ELOOP, which
      [Path.exists] and [Path.is_file] raise again before Python 3.14.
    - [write_error p text]: [f.write(text)] or the close of the file
      raises after [open(p, 'w')] has created or truncated the file (a
      [str] that UTF-8 cannot encode, a full disk), with the bytes the
      file is left with.
    - [mkdtemp_error], [rmtree_error]: the creation and the removal of the
      directory of [tempfile.TemporaryDirectory()] raise. *)
Class Platform := {
  ext : External;
  os_error : syscall -> path -> option exn;
  write_error : path -> string -> option (exn * string);
  mkdtemp_error : option exn;
  rmtree_error : option exn
}.

Section Primitives.
Context `{os : Platform}.
#[local] Existing Instance ext.

(** [Path(p).exists()] and [Path(p).is_file()]. *)
Definition exists_ (p : path) : M bool :=
  fun w =>
    match os_error Stat p with
    | Some e => (Raise e, w)
    | None => (Ret (Path_exists (fs w) p), w)
    end.

Definition is_file (p : path) : M bool :=
  fun w =>
    match os_error Stat p with
    | Some e => (Raise e, w)
    | None => (Ret (Path_is_file (fs w) p), w)
    end.

(** [Path(p).mkdir(parents=True, exist_ok=True)]. *)
Definition mkdir (p : path) : M unit :=
  fun w =>
    match os_error Mkdir p with
    | Some e => (Raise e, w)
    | None =>
        match makedirs p (fs w) p with
        | Ret t => (Ret tt, World t (log w))
        | Raise e => (Raise e, w)
        end
    end.

(** [with open(p, 'w', encoding='utf-8') as f: f.write(text)].  A [str] is
    held as its UTF-8 bytes, so the bytes written are the text.  The open
    creates or truncates the file before anything is written: when the
    write raises, the file stays with what had reached it. *)
Definition open_write (p : path) (text : string) : M unit :=
  fun w =>
    match os_error OpenWrite p with
    | Some e => (Raise e, w)
    | None =>
        match write_error p text with
        | Some (e, remains) =>
            match write_file p remains (fs w) p with
            | Ret t => (Raise e, World t (log w))
            | Raise e' => (Raise e', w)
            end
        | None =>
            match write_file p text (fs w) p with
            | Ret t => (Ret tt, World t (log w))
            | Raise e => (Raise e, w)
            end
        end
    end.

(** [with open(p, 'rb') as f: f.read()]. *)
Definition open_read (p : path) : M string :=
  fun w =>
    match os_error OpenRead p with
    | Some e => (Raise e, w)
    | None => (read_file p (fs w) p, w)
    end.

(** [with tempfile.TemporaryDirectory() as temp_dir: body]: the directory
    is made before the body and removed after it, also when the body
    raises; the exception of the removal replaces that of the body. *)
Definition temporary_directory {A} (body : M A) : M A :=
  fun w =>
    match mkdtemp_error with
    | Some e => (Raise e, w)
    | None =>
        let '(o, w') := body w in
        match rmtree_error with
        | Some e => (Raise e, w')
        | None => (o, w')
        end
    end.

End Primitives.

(** The platform on which no such failure occurs.  A statement that binds
    the collaborators only is a statement about this platform. *)
Definition ideal (H : External) : Platform := {|
  ext := H;
  os_error := fun _ _ => None;
  write_error := fun _ _ => None;
  mkdtemp_error := None;
  rmtree_error := None
|}.
#[global] Existing Instance ideal.
Coercion ideal : External >-> Platform.

(** [for a in l: s = body(s, a)]. *)
Fixpoint for_each {A S} (l : list A) (body : S -> A -> M S) (s : S) : M S :=
  match l with
  | [] => ret s
  | a :: l' => s' <- body s a ;; for_each l' body s'
  end.

(* ===================================================================== *)
(** ** converters/base.py *)
(* ===================================================================== *)

Module BaseConverter.

(** A converter object: its class, its attribute and the [convert] method
    its class binds (abstract in the base class). *)
Record t := Build {
  cls : converter_class;
  preserve_structure : bool;
  convert : path -> path -> M bool
}.

Section WithPlatform.
Context `{os : Platform}.
#[local] Existing Instance ext.

Definition _validate_input (input_path : path) : M bool :=
  e <- exists_ input_path ;;
  if negb e then
    logger ERROR ("Input file does not exist: " +:+ str_path input_path) ;;
    ret false
  else
    f <- is_file input_path ;;
    if negb f then
      logger ERROR ("Input path is not a file: " +:+ str_path input_path) ;;
      ret false
    else ret true.

Definition _write_output (text : string) (output_path : path) : M bool :=
  try_except
    (mkdir (parent output_path) ;;
     open_write output_path text ;;
     logger DEBUG ("Successfully wrote output to: " +:+ str_path output_path) ;;
     ret true)
    (fun e =>
       logger ERROR ("Failed to write output to " +:+ str_path output_path
                     +:+ ": " +:+ exn_msg e) ;;
       ret false).

Definition safe_convert (self : t) (input_path output_path : path)
  : M (bool * option string) :=
  try_except
    (ok <- _validate_input input_path ;;
     if negb ok then ret (false, Some "Invalid input file")
     else
       success <- convert self input_path output_path ;;
       if success then ret (true, None)
       else ret (false, Some "Conversion failed"))
    (fun e =>
       let error_msg := exn_type e +:+ ": " +:+ exn_msg e in
       logger ERROR ("Error converting " +:+ str_path input_path +:+ ": " +:+ error_msg) ;;
       ret (false, Some error_msg)).

(** The body every subclass gives [convert], around its own
    [_extract_text]; an empty text is falsy. *)
Definition convert_with (c : converter_class) (_extract_text : path -> M string)
    (input_path output_path : path) : M bool :=
  try_except
    (text <- _extract_text input_path ;;
     if negb (bool_decide (text = "")) then _write_output text output_path
     else ret false)
    (fun e =>
       logger ERROR ("Error converting " +:+ class_name c +:+ " "
                     +:+ str_path input_path +:+ ": " +:+ exn_msg e) ;;
       ret false).

End WithPlatform.
End BaseConverter.

(* ===================================================================== *)
(** ** converters/mobi_converter.py and the other subclasses *)
(* ===================================================================== *)

Module MOBIConverter.
Section WithPlatform.
Context `{os : Platform}.
#[local] Existing Instance ext.

Definition _extract_text (preserve_structure : bool) (input_path : path) : M string :=
  (* Create a temporary directory for extraction *)
  temporary_directory
    (try_except
       (content <- open_read input_path ;;
        html <- lift (mobi_extract content) ;;
        match html with
        | None =>
            logger ERROR ("Failed to extract MOBI content from " +:+ str_path input_path) ;;
            ret ""
        | Some html_content => lift (parse MOBI preserve_structure html_content)
        end)
       (fun e =>
          logger ERROR ("Error extracting MOBI content: " +:+ exn_msg e) ;;
          (* Fallback: try direct text extraction *)
          try_except
            (content <- open_read input_path ;;
             ret (decode_utf8_ignore content))
            (fun _ => ret ""))).

Definition convert (preserve_structure : bool) : path -> path -> M bool :=
  BaseConverter.convert_with MOBI (_extract_text preserve_structure).

Definition new (preserve_structure : bool) : BaseConverter.t :=
  BaseConverter.Build MOBI preserve_structure (convert preserve_structure).

End WithPlatform.
End MOBIConverter.

(** The converters whose [_extract_text] is the call into the parsing
    library of their format. *)
Module LibraryConverter.
Section WithPlatform.
Context `{os : Platform}.
#[local] Existing Instance ext.

Definition _extract_text (c : converter_class) (preserve_structure : bool)
    (input_path : path) : M string :=
  content <- open_read input_path ;;
  lift (parse c preserve_structure content).

Definition convert (c : converter_class) (preserve_structure : bool)
  : path -> path -> M bool :=
  BaseConverter.convert_with c (_extract_text c preserve_structure).

Definition new (c : converter_class) (preserve_structure : bool) : BaseConverter.t :=
  BaseConverter.Build c preserve_structure (convert c preserve_structure).

End WithPlatform.
End LibraryConverter.

(* ===================================================================== *)
(** ** converters/factory.py *)
(* ===================================================================== *)

Module ConverterFactory.
Section WithPlatform.
Context `{os : Platform}.
#[local] Existing Instance ext.

(** File extensions mapped to converter classes (their constructors). *)
Definition CONVERTER_MAP : gmap string (bool -> BaseConverter.t) :=
  list_to_map
    [ (".pdf", LibraryConverter.new PDF);
      (".docx", LibraryConverter.new DOCX);
      (".xlsx", LibraryConverter.new XLSX);
      (".pptx", LibraryConverter.new PPTX);
      (".html", LibraryConverter.new HTML);
      (".htm", LibraryConverter.new HTML);
      (".md", LibraryConverter.new Markdown);
      (".markdown", LibraryConverter.new Markdown);
      (".epub", LibraryConverter.new EPUB);
      (".mobi", MOBIConverter.new) ].

Definition get_converter (file_path : path) (preserve_structure : bool)
  : option BaseConverter.t :=
  let extension := lower (suffix file_path) in
  match CONVERTER_MAP !! extension with
  | Some converter_class => Some (converter_class preserve_structure)
  | None => None
  end.

Definition is_supported (file_path : path) : bool :=
  let extension := lower (suffix file_path) in
  bool_decide (is_Some (CONVERTER_MAP !! extension)).

Definition get_supported_extensions : list string :=
  [".pdf"; ".docx"; ".xlsx"; ".pptx"; ".html"; ".htm"; ".md"; ".markdown";
   ".epub"; ".mobi"].

End WithPlatform.
End ConverterFactory.

(* ===================================================================== *)
(** ** core/batch_processor.py *)
(* ===================================================================== *)

(** Result of a document conversion. *)
Record ConversionResult := Result {
  input_path : path;
  output_path : path;
  success : bool;
  error : option string
}.

(** The dictionary with the keys ['successful'] and ['failed']. *)
Record results_dict := Results {
  successful : list ConversionResult;
  failed : list ConversionResult
}.

Definition ZeroDivisionError : exn := Exn "ZeroDivisionError" "division by zero".

(** [a / b] on two [int]s. *)
Definition truediv (a b : nat) : outcome Q :=
  match b with
  | O => Raise ZeroDivisionError
  | S _ => Ret (Z.of_nat a # Pos.of_nat b)%Q
  end.

Module BatchProcessor.
Section WithPlatform.
Context `{os : Platform}.
#[local] Existing Instance ext.

Record t := Build {
  input_folder : path;
  output_folder : path;
  batch_size : Z;
  max_memory_gb : Q;
  preserve_structure : bool;
  skip_on_error : bool;
  overwrite_existing : bool
}.

Definition __init__ (input_folder output_folder : path) (batch_size : Z)
    (max_memory_gb : Q) (preserve_structure skip_on_error overwrite_existing : bool)
  : M t :=
  let self :=
    Build input_folder output_folder
          (Z.min batch_size 10) (* Cap at 10 *)
          max_memory_gb preserve_structure skip_on_error overwrite_existing in
  (* Create output folder if it doesn't exist *)
  mkdir output_folder ;;
  ret self.

(** [MemoryMonitor.log_memory_status]: one INFO record; the figures psutil
    reports are left out of its text. *)
Definition log_memory_status : M unit := logger INFO "Memory Status".

(** The body of the loop over the files of one directory of the walk. *)
Definition discover_file (self : t) (root : path) (documents : list (path * path))
    (filename : string) : M (list (path * path)) :=
  let input_path := root ++ [filename] in
  (* Check if format is supported *)
  if negb (ConverterFactory.is_supported input_path) then ret documents
  else
    (* Generate output path *)
    relative_path <- lift (relative_to input_path (input_folder self)) ;;
    txt <- lift (with_suffix relative_path ".txt") ;;
    let output_path := output_folder self ++ txt in
    (* Skip if output exists and not overwriting *)
    e <- exists_ output_path ;;
    if e && negb (overwrite_existing self) then
      logger INFO ("Skipping existing file: " +:+ str_path output_path) ;;
      ret documents
    else ret (documents ++ [(input_path, output_path)]).

Definition discover_documents (self : t) : M (list (path * path)) :=
  e <- exists_ (input_folder self) ;;
  if negb e then
    logger ERROR ("Input folder does not exist: " +:+ str_path (input_folder self)) ;;
    ret []
  else
    (* Walk through all files in input folder *)
    fun w =>
    (documents <-
       for_each (os_walk (fs w) (input_folder self))
         (fun documents '(root, dirs, files) =>
            for_each files (discover_file self root) documents)
         [] ;;
     logger INFO ("Discovered " +:+ str_of_nat (List.length documents)
                  +:+ " documents to convert") ;;
     ret documents) w.

Definition _convert_single (self : t) (input_path output_path : path)
  : M ConversionResult :=
  try_except
    ((* Get appropriate converter *)
     match ConverterFactory.get_converter input_path (preserve_structure self) with
     | None =>
         let error := "No converter found for " +:+ str_path input_path in
         logger ERROR error ;;
         ret (Result input_path output_path false (Some error))
     | Some converter =>
         (* Create output directory if needed *)
         mkdir (parent output_path) ;;
         (* Convert document *)
         r <- BaseConverter.safe_convert converter input_path output_path ;;
         let '(success, error) := r in
         if success then
           logger INFO ("Successfully converted: " +:+ str_path input_path) ;;
           ret (Result input_path output_path true None)
         else
           logger ERROR ("Failed to convert " +:+ str_path input_path +:+ ": "
                         +:+ default "None" error) ;;
           ret (Result input_path output_path false error)
     end)
    (fun e =>
       let error := exn_type e +:+ ": " +:+ exn_msg e in
       logger ERROR ("Exception converting " +:+ str_path input_path +:+ ": " +:+ error) ;;
       ret (Result input_path output_path false (Some error))).

(** The futures a worker has taken ([running]) and the submitted calls
    still waiting ([queue]): idle workers take calls in submission
    order. *)
Definition refill (max_workers : nat) (running queue : list (path * path))
  : list (path * path) * list (path * path) :=
  let k := (max_workers - List.length running)%nat in
  (running ++ take k queue, drop k queue).

(** [for future in as_completed(future_to_doc): results.append(future.result())]
    for the [n] futures still to complete.  The order in which running
    futures complete is the thread scheduler's, and [as_completed] yields
    the futures that are finished when it is called in an order of its own
    (it keeps them in a set) before it yields the others as they complete:
    a result can come in the list before results of calls that completed
    earlier.  The head of [sched] gives both choices: its remainder by the
    number of calls in flight picks the one that completes next, its
    quotient how many of the results already in the list come after the
    new one.  The call of a future takes effect on the world when it
    completes; [future.result()] raises what the call raised. *)
Fixpoint as_completed (self : t) (max_workers n : nat) (sched : list nat)
    (running queue : list (path * path)) (results : list ConversionResult)
  : M (list ConversionResult) :=
  match n with
  | O => ret results
  | S n' =>
      let '(running, queue) := refill max_workers running queue in
      let i := (hd 0 sched mod List.length running)%nat in
      match running !! i with
      | None => ret results
      | Some (inp, out) =>
          result <- _convert_single self inp out ;;
          let later := ((hd 0 sched / List.length running)
                          mod S (List.length results))%nat in
          let position := (List.length results - later)%nat in
          as_completed self max_workers n' (tl sched) (delete i running) queue
                       (take position results ++ result :: drop position results)
      end
  end.

Definition process_batch (self : t) (sched : list nat) (documents : list (path * path))
  : M (list ConversionResult) :=
  match documents with
  | [] => ret []
  | _ :: _ =>
      (* Log memory status before processing *)
      log_memory_status ;;
      (* ThreadPoolExecutor(max_workers=self.batch_size) *)
      (if (batch_size self <=? 0)%Z
       then raise (ValueError "max_workers must be greater than 0")
       else ret tt) ;;
      results <- as_completed self (Z.to_nat (batch_size self)) (List.length documents)
                              sched [] documents [] ;;
      (* Log memory status after processing *)
      log_memory_status ;;
      ret results
  end.

Definition process_all (self : t) (sched : list nat) : M results_dict :=
  (* Discover all documents *)
  documents <- discover_documents self ;;
  match documents with
  | [] =>
      logger WARNING "No documents found to convert" ;;
      ret (Results [] [])
  | _ :: _ =>
      (* Process all documents *)
      all_results <- process_batch self sched documents ;;
      (* Separate successful and failed conversions *)
      ret (Results (filter (λ r, success r = true) all_results)
                   (filter (λ r, success r = false) all_results))
  end.

Definition generate_report (results : results_dict) : outcome string :=
  let successful := successful results in
  let failed := failed results in
  let total := (List.length successful + List.length failed)%nat in
  match
    (if (0 <? total)%nat
     then match truediv (List.length successful) total with
          | Ret q => Ret ("Success rate: " +:+ format_percent q +:+ "%")
          | Raise e => Raise e
          end
     else Ret "N/A")
  with
  | Raise e => Raise e
  | Ret rate_line =>
      let report_lines :=
        [ newline +:+ repeat_char "=" 60;
          "CONVERSION REPORT";
          repeat_char "=" 60;
          "Total documents: " +:+ str_of_nat total;
          "Successful: " +:+ str_of_nat (List.length successful);
          "Failed: " +:+ str_of_nat (List.length failed);
          rate_line;
          repeat_char "=" 60 ] in
      let report_lines :=
        match failed with
        | [] => report_lines
        | _ :: _ =>
            (report_lines ++ [newline +:+ "Failed conversions:"]) ++
            flat_map
              (fun result =>
                 ("  ✗ " +:+ str_path (input_path result)) ::
                 match error result with
                 | Some e => if bool_decide (e = "") then [] else ["    Error: " +:+ e]
                 | None => []
                 end)
              failed
        end in
      let report_lines :=
        match successful with
        | [] => report_lines
        | _ :: _ =>
            report_lines ++
            [newline +:+ "Successfully converted "
                     +:+ str_of_nat (List.length successful) +:+ " documents"]
        end in
      let report_lines := report_lines ++ [repeat_char "=" 60 +:+ newline] in
      Ret (join newline report_lines)
  end.

End WithPlatform.
End BatchProcessor.

(* ===================================================================== *)
(** ** config/settings.py *)
(* ===================================================================== *)

Module Config.

(** A YAML float: a finite value, an infinity or [.nan].  A YAML integer
    given for a float is the finite value it is. *)
Inductive pyfloat := Finite (q : Q) | Infinity (negative : bool) | NaN.

(** [x < n] for a float [x] and an [int] [n]; false for [nan]. *)
Definition float_lt (x : pyfloat) (n : Z) : bool :=
  match x with
  | Finite q => negb (Qle_bool (n # 1)%Q q)
  | Infinity negative => negative
  | NaN => false
  end.

(** [config_data], by key; a key left out takes the default of its
    property.  The batch size is taken to be a YAML integer, the paths to
    be relative and written without ["."] components. *)
Record t := Build {
  cfg_input_folder : option path;
  cfg_output_folder : option path;
  cfg_batch_size : option Z;
  cfg_max_memory_gb : option pyfloat;
  cfg_log_file : option path
}.

Definition input_folder (self : t) : path := default ["input"] (cfg_input_folder self).
Definition output_folder (self : t) : path := default ["output"] (cfg_output_folder self).
Definition batch_size (self : t) : Z := default 10%Z (cfg_batch_size self).
Definition max_memory_gb (self : t) : pyfloat :=
  default (Finite (10 # 1)%Q) (cfg_max_memory_gb self).
Definition log_file (self : t) : path :=
  default ["logs"; "converter.log"] (cfg_log_file self).

(** [os.makedirs(name, exist_ok=True)], followed from the node [n] after
    the components [done] along the components [p] still to come: missing
    directories are made, an existing directory is accepted; the error of
    a file in the way names the first directory that could not be made. *)
Fixpoint os_makedirs_from (done : path) (n : node) (p : path) : outcome node :=
  match p, n with
  | [], Dir _ => Ret n
  | [], File _ => Raise (FileExistsError done)
  | c :: _, File _ => Raise (NotADirectoryError (done ++ [c]))
  | c :: p', Dir es =>
      match os_makedirs_from (done ++ [c]) (default (Dir []) (entry c es)) p' with
      | Ret child => Ret (Dir (set_entry c child es))
      | Raise e => Raise e
      end
  end.

Section WithPlatform.
Context `{os : Platform}.
#[local] Existing Instance ext.

Definition os_makedirs (p : path) : M unit :=
  fun w =>
    match os_error Mkdir p with
    | Some e => (Raise e, w)
    | None =>
        match os_makedirs_from [] (fs w) p with
        | Ret t => (Ret tt, World t (log w))
        | Raise e => (Raise e, w)
        end
    end.

(** [os.makedirs(os.path.dirname(file), exist_ok=True)]: the directory
    part of a file name without one is [''], which [os.makedirs]
    refuses. *)
Definition os_makedirs_dirname (file : path) : M unit :=
  match parent file with
  | [] => raise (Exn "FileNotFoundError" "[Errno 2] No such file or directory: ''")
  | d => os_makedirs d
  end.

(** Validate configuration values. *)
Definition _validate_config (self : t) : M unit :=
  (* Validate batch size *)
  (if (batch_size self <? 1)%Z || (50 <? batch_size self)%Z
   then raise (ValueError "batch_size must be between 1 and 50")
   else ret tt) ;;
  (* Validate memory limit *)
  (if float_lt (max_memory_gb self) 1
   then raise (ValueError "max_memory_gb must be at least 1")
   else ret tt) ;;
  (* Create directories if they don't exist *)
  os_makedirs (input_folder self) ;;
  os_makedirs (output_folder self) ;;
  os_makedirs_dirname (log_file self).

End WithPlatform.
End Config.

(** An instance of the collaborators for closed examples: the parsing
    libraries return the bytes they are given and raise on the file
    ["corrupt"]; [mobi.extract] fails on every file that does not start
    with the letter B; decoding drops no byte (right for ASCII input). *)
Definition sample_external : External := {|
  parse := fun _ _ content =>
    if bool_decide (content = "corrupt")
    then Raise (Exn "ExtractionError" "unreadable document")
    else Ret content;
  mobi_extract := fun content =>
    match content with
    | String "B" _ => Ret (Some content)
    | _ => Raise (Exn "MobiError" "not a MOBI file")
    end;
  decode_utf8_ignore := fun s => s;
  format_percent := fun _ => "?"
|}.

(** The scenario of the specification: an extractable PDF, a file of an
    unsupported format and a DOCX whose extraction raises. *)
Definition sample_tree : node :=
  Dir [("in", Dir [("a.pdf", File "Hello"); ("b.xyz", File "data");
                   ("c.docx", File "corrupt")])].

Definition sample_world : world := World sample_tree [].

Definition sample_processor : BatchProcessor.t :=
  BatchProcessor.Build ["in"] ["out"] 10 (10 # 1)%Q true true false.

Definition sample_documents : list (path * path) :=
  [(["in"; "a.pdf"], ["out"; "a.txt"]);
   (["in"; "b.xyz"], ["out"; "b.txt"]);
   (["in"; "c.docx"], ["out"; "c.txt"])].

(** A processor whose input folder is not in [sample_tree], and a tree
    whose input folder is empty. *)
Definition lost_processor : BatchProcessor.t :=
  BatchProcessor.Build ["nowhere"] ["out"] 10 (10 # 1)%Q true true false.

Definition empty_input_world : world := World (Dir [("nowhere", Dir [])]) [].

(** The primary extraction of a MOBI file raises: [mobi.extract] does, or
    the parsing of the HTML it unpacked does. *)
Definition mobi_primary_raises `{External} (preserve_structure : bool) (content : string)
    (e : exn) : Prop :=
  mobi_extract content = Raise e \/
  exists html, mobi_extract content = Ret (Some html) /\
               parse MOBI preserve_structure html = Raise e.

(** A MOBI file that [mobi.extract] refuses. *)
Definition garbled_tree : node := Dir [("in", Dir [("book.mobi", File "not a book")])].

(** The task a result stands for. *)
Definition task_of (r : ConversionResult) : path * path :=
  (input_path r, output_path r).

(** A result either succeeded without an error text or failed with one
    that is not empty. *)
Definition result_ok (r : ConversionResult) : Prop :=
  (success r = true -> error r = None) /\
  (success r = false -> exists msg, error r = Some msg /\ msg <> "").

(** The [_extract_text] method of a converter class. *)
Definition extract_text_of `{Platform} (c : converter_class)
  : bool -> path -> M string :=
  match c with
  | MOBI => MOBIConverter._extract_text
  | _ => LibraryConverter._extract_text c
  end.


(** The files [os.walk] reaches from [top], as paths. *)
Definition walk_files (t : node) (top : path) : list path :=
  flat_map (fun '(root, _, files) => map (fun f => root ++ [f]) files) (os_walk t top).

(** What the body of the discovery loop does with one input file whose
    path lies below the input folder: the task it appends, if any. *)
Definition candidate `{Platform} (self : BatchProcessor.t) (t : node) (input_path : path)
  : option (path * path) :=
  if negb (ConverterFactory.is_supported input_path) then None
  else
    match relative_to input_path (BatchProcessor.input_folder self) with
    | Ret relative_path =>
        match with_suffix relative_path ".txt" with
        | Ret txt =>
            let output_path := BatchProcessor.output_folder self ++ txt in
            if Path_exists t output_path && negb (BatchProcessor.overwrite_existing self)
            then None
            else Some (input_path, output_path)
        | Raise _ => None
        end
    | Raise _ => None
    end.

(** The output path of the file [input_folder / rel]. *)
Definition output_for `{Platform} (self : BatchProcessor.t) (rel : path) : path :=
  BatchProcessor.output_folder self ++ parent rel ++ [name_with_suffix (name rel) ".txt"].


Definition add_log (w : world) (lv : level) (msg : string) : world :=
  World (fs w) (log w ++ [(lv, msg)]).



(** Two documents of one directory with the same stem. *)
Definition twin_tree : node :=
  Dir [("in", Dir [("a.pdf", File "Hello"); ("a.docx", File "World")])].

(** The processor [self] with another memory limit and another
    [skip_on_error]. *)
Definition with_advisory (self : BatchProcessor.t) (max_memory_gb : Q)
    (skip_on_error : bool) : BatchProcessor.t :=
  BatchProcessor.Build (BatchProcessor.input_folder self)
    (BatchProcessor.output_folder self) (BatchProcessor.batch_size self)
    max_memory_gb (BatchProcessor.preserve_structure self) skip_on_error
    (BatchProcessor.overwrite_existing self).

(** What the [_extract_text] of a converter class returns for an input
    file with the bytes [content]. *)
Definition extracted `{External} (c : converter_class) (preserve_structure : bool)
    (content : string) : outcome string :=
  match c with
  | MOBI =>
      Ret match mobi_extract content with
          | Ret None => ""
          | Ret (Some html) =>
              match parse MOBI preserve_structure html with
              | Ret text => text
              | Raise _ => decode_utf8_ignore content
              end
          | Raise _ => decode_utf8_ignore content
          end
  | _ => parse c preserve_structure content
  end.

(** The result and the tree of the conversion of an input file with the
    bytes [content], once its converter class is known and the directory of
    the output is made (tree [t1]). *)
Definition converted `{External} (c : converter_class) (preserve_structure : bool)
    (inp out : path) (content : string) (t1 : node) : ConversionResult * node :=
  let failure := (Result inp out false (Some "Conversion failed"), t1) in
  match extracted c preserve_structure content with
  | Ret text =>
      if bool_decide (text = "") then failure
      else
        match write_file out text t1 out with
        | Ret t2 => (Result inp out true None, t2)
        | Raise _ => failure
        end
  | Raise _ => failure
  end.

(** The files of two trees are the same but for the path [out]. *)
Definition same_files_but (out : path) (t t' : node) : Prop :=
  forall q c, q <> out ->
    (fs_lookup t' q = Some (File c) <-> fs_lookup t q = Some (File c)).

(** A computation that changes no file but [out] and adds none, however
    it ends. *)
Definition writes_only {A} (out : path) (m : M A) : Prop :=
  forall w o w', m w = (o, w') -> same_files_but out (fs w) (fs w').

(** The state of a run started in the tree [t0], after the results [rs]:
    the files outside the output paths of the results are those of [t0],
    and the output of a successful result holds a text that is not empty
    unless a failed result has the same output path. *)
Definition run_inv (t0 : node) (w : world) (rs : list ConversionResult) : Prop :=
  (forall q c, (forall r, r ∈ rs -> output_path r <> q) ->
     (fs_lookup (fs w) q = Some (File c) <-> fs_lookup t0 q = Some (File c))) /\
  (forall r, r ∈ rs -> success r = true ->
     (forall r', r' ∈ rs -> success r' = false -> output_path r' <> output_path r) ->
     exists text, text <> "" /\ fs_lookup (fs w) (output_path r) = Some (File text)).



(** The first failure of [os.stat] on a list of paths. *)
Fixpoint first_stat_error `{Platform} (ps : list path) : option exn :=
  match ps with
  | [] => None
  | p :: ps' =>
      match os_error Stat p with
      | Some e => Some e
      | None => first_stat_error ps'
      end
  end.

(** A platform with failures, for closed examples: a path with a name of
    more than 255 bytes is refused by every system call (ENAMETOOLONG on
    Linux), and the text ["\udc80"] stands for a [str] that UTF-8 cannot
    encode, whose write raises and leaves the file empty. *)
Definition name_too_long (p : path) : option exn :=
  if existsb (fun c => (255 <? String.length c)%nat) p
  then Some (Exn "OSError" ("[Errno 36] File name too long: '" +:+ str_path p +:+ "'"))
  else None.

Definition sample_faulty : Platform := {|
  ext := {| parse := fun _ _ content =>
              if bool_decide (content = "corrupt")
              then Raise (Exn "ExtractionError" "unreadable document")
              else Ret content;
            mobi_extract := fun content => Raise (Exn "MobiError" "not a MOBI file");
            decode_utf8_ignore := fun s => s;
            format_percent := fun _ => "?" |};
  os_error := fun _ p => name_too_long p;
  write_error := fun _ text =>
    if bool_decide (text = "\udc80")
    then Some (Exn "UnicodeEncodeError"
                   "'utf-8' codec can't encode character '\udc80' in position 0: surrogates not allowed",
               "")
    else None;
  mkdtemp_error := None;
  rmtree_error := None
|}.



(** A Markdown file whose name has the 255 bytes a Linux file system
    allows; the name of its output has 256.  And a processor that
    overwrites. *)
Definition long_stem : string := repeat_char "x" 252.

Definition long_name_world : world :=
  World (Dir [("in", Dir [("a.pdf", File "Hello"); (long_stem +:+ ".md", File "Hello")])]) [].

Definition overwriting_processor : BatchProcessor.t :=
  BatchProcessor.Build ["in"] ["out"] 10 (10 # 1)%Q true true true.


(* ===================================================================== *)
(** * Properties *)
(* ===================================================================== *)

(** Unless a statement binds a [Platform], the platform of its calls is
    [ideal]: the statement binds the collaborators, and holds on the
    platform without failures of the operating system. *)

(** Unfolding the monad and the primitives: on any platform, and on the
    ideal one, where the tests of the failures reduce. *)
Ltac run_os :=
  cbv beta iota delta
    [bind ret raise try_except lift logger exists_ is_file mkdir open_write open_read
     temporary_directory].

Ltac run :=
  cbv beta iota delta
    [bind ret raise try_except lift logger exists_ is_file mkdir open_write open_read
     temporary_directory ideal ext os_error write_error mkdtemp_error rmtree_error].

(** ** The embedding on concrete inputs *)

Example suffix_examples :
  suffix ["my"; "library"; "setup.py"] = ".py" /\
  suffix ["library.tar.gz"] = ".gz" /\
  suffix ["my"; "library"] = "" /\
  suffix [".profile"] = "" /\
  suffix ["notes."] = "".
Proof. repeat split. Qed.

Example with_suffix_examples :
  with_suffix ["README"] ".txt" = Ret ["README.txt"] /\
  with_suffix ["docs"; "pathlib.tar.gz"] ".txt" = Ret ["docs"; "pathlib.tar.txt"] /\
  is_ret (with_suffix [] ".txt") = false.
Proof. repeat split. Qed.

Example supported_examples :
  @ConverterFactory.is_supported sample_external ["in"; "Report.PDF"] = true /\
  @ConverterFactory.is_supported sample_external ["in"; "b.xyz"] = false /\
  @ConverterFactory.is_supported sample_external ["in"; "subtitles.srt"] = false /\
  @ConverterFactory.is_supported sample_external ["out"; "a.txt"] = false.
Proof. repeat split; vm_compute; reflexivity. Qed.

Example makedirs_examples :
  makedirs ["out"; "sub"] sample_tree ["out"; "sub"] =
    Ret (Dir [("in", Dir [("a.pdf", File "Hello"); ("b.xyz", File "data");
                          ("c.docx", File "corrupt")]);
              ("out", Dir [("sub", Dir [])])]) /\
  makedirs ["in"; "a.pdf"] sample_tree ["in"; "a.pdf"] =
    Raise (FileExistsError ["in"; "a.pdf"]) /\
  makedirs ["in"; "a.pdf"; "x"] sample_tree ["in"; "a.pdf"; "x"] =
    Raise (NotADirectoryError ["in"; "a.pdf"; "x"]) /\
  write_file ["out"; "a.txt"] "Hello" sample_tree ["out"; "a.txt"] =
    Raise (FileNotFoundError ["out"; "a.txt"]) /\
  write_file ["in"] "Hello" sample_tree ["in"] = Raise (IsADirectoryError ["in"]).
Proof. repeat split. Qed.

Example sample_discovery :
  (@BatchProcessor.discover_documents sample_external sample_processor sample_world).1 =
    Ret [(["in"; "a.pdf"], ["out"; "a.txt"]); (["in"; "c.docx"], ["out"; "c.txt"])].
Proof. vm_compute. reflexivity. Qed.

Lemma append_nonempty_r (s t : string) : t <> "" -> s +:+ t <> "".
Proof. induction s; simpl; [tauto | discriminate]. Qed.

Lemma error_text_nonempty (e : exn) : exn_type e +:+ ": " +:+ exn_msg e <> "".
Proof. apply append_nonempty_r. discriminate. Qed.

(** ** Exceptions stop at [safe_convert] and [_convert_single] *)

Section Isolation.
Context `{os : Platform}.
#[local] Existing Instance ext.

Lemma safe_convert_returns (self : BaseConverter.t) (inp out : path) (w : world) :
  exists b err w',
    BaseConverter.safe_convert self inp out w = (Ret (b, err), w') /\
    (b = true -> err = None) /\
    (b = false -> exists msg, err = Some msg /\ msg <> "").
Proof.
  unfold BaseConverter.safe_convert, try_except, bind.
  destruct (BaseConverter._validate_input inp w) as [[[|]|e] w0]; cbn [negb].
  - destruct (BaseConverter.convert self inp out w0) as [[[|]|e] w1]; unfold ret;
      eexists _, _, _; (split; [reflexivity|]).
    + split; [reflexivity | discriminate].
    + split; [discriminate | intros _; eexists; split; [reflexivity | discriminate]].
    + split; [discriminate|]. intros _. eexists. split; [reflexivity|].
      apply error_text_nonempty.
  - unfold ret. eexists _, _, _. split; [reflexivity|].
    split; [discriminate | intros _; eexists; split; [reflexivity | discriminate]].
  - unfold logger, ret. eexists _, _, _. split; [reflexivity|].
    split; [discriminate|]. intros _. eexists. split; [reflexivity|].
    apply error_text_nonempty.
Qed.

Lemma convert_single_returns (self : BatchProcessor.t) (inp out : path) (w : world) :
  exists r w',
    BatchProcessor._convert_single self inp out w = (Ret r, w') /\
    task_of r = (inp, out) /\ result_ok r.
Proof.
  unfold BatchProcessor._convert_single, result_ok.
  destruct (ConverterFactory.get_converter inp _) as [converter|].
  - unfold try_except at 1. unfold bind at 1.
    destruct (mkdir (parent out) w) as [[[]|e] w0].
    + unfold bind at 1.
      destruct (safe_convert_returns converter inp out w0)
        as (b & err & w1 & -> & Hok & Hfail).
      destruct b; run_os; simpl; eexists _, _; (split; [reflexivity|]);
        (split; [reflexivity|]); simpl; split; auto; discriminate.
    + run_os. simpl. eexists _, _. split; [reflexivity|]. split; [reflexivity|].
      simpl. split; [discriminate|]. intros _. eexists. split; [reflexivity|].
      apply error_text_nonempty.
  - run_os. simpl. eexists _, _. split; [reflexivity|]. split; [reflexivity|].
    simpl. split; [discriminate|]. intros _. eexists. split; [reflexivity|].
    discriminate.
Qed.

End Isolation.

Section Registry.
Context `{os : Platform}.
#[local] Existing Instance ext.

(** Every registered converter is its class's [convert] around its class's
    [_extract_text]. *)
Lemma get_converter_registered (p : path) (ps : bool) (conv : BaseConverter.t) :
  ConverterFactory.get_converter p ps = Some conv ->
  conv = BaseConverter.Build (BaseConverter.cls conv) ps
           (BaseConverter.convert_with (BaseConverter.cls conv)
              (extract_text_of (BaseConverter.cls conv) ps)).
Proof.
  unfold ConverterFactory.get_converter, ConverterFactory.CONVERTER_MAP.
  cbn [list_to_map foldr uncurry fst snd].
  repeat (rewrite lookup_insert; case_decide;
          [intros [= <-]; reflexivity|]).
  rewrite lookup_empty. discriminate.
Qed.

Lemma is_supported_get_converter (p : path) (ps : bool) :
  ConverterFactory.is_supported p = true <->
  is_Some (ConverterFactory.get_converter p ps).
Proof.
  unfold ConverterFactory.is_supported, ConverterFactory.get_converter.
  rewrite bool_decide_eq_true.
  destruct (ConverterFactory.CONVERTER_MAP !! lower (suffix p)); split;
    intros [x Hx]; try discriminate; eauto.
Qed.

(** [get_supported_extensions] lists the keys of [CONVERTER_MAP]. *)
Lemma supported_extensions_keys (extension : string) :
  extension ∈ ConverterFactory.get_supported_extensions <->
  is_Some (ConverterFactory.CONVERTER_MAP !! extension).
Proof.
  unfold ConverterFactory.get_supported_extensions, ConverterFactory.CONVERTER_MAP.
  cbn [list_to_map foldr uncurry fst snd]. split.
  - rewrite !elem_of_cons, elem_of_nil.
    intros Hin. repeat destruct Hin as [->|Hin]; try contradiction;
      repeat (rewrite lookup_insert; case_decide; [eauto|]); congruence.
  - repeat (rewrite lookup_insert; case_decide;
            [subst extension; intros _; rewrite !elem_of_cons; tauto|]).
    rewrite lookup_empty. intros [x Hx]. discriminate.
Qed.

End Registry.

(** ** Equations of the conversion of one document *)

Lemma is_file_exists (t : node) (p : path) :
  Path_is_file t p = true -> Path_exists t p = true.
Proof. unfold Path_is_file, Path_exists. destruct (fs_lookup t p); [reflexivity | discriminate]. Qed.

Section Valid.
Context `{External}.

Lemma validate_input_file (inp : path) (w : world) :
  Path_is_file (fs w) inp = true ->
  BaseConverter._validate_input inp w = (Ret true, w).
Proof.
  intros Hf. unfold BaseConverter._validate_input. run.
  rewrite (is_file_exists _ _ Hf). simpl. rewrite Hf. reflexivity.
Qed.

Lemma safe_convert_invalid (self : BaseConverter.t) (inp out : path) (w : world) :
  Path_is_file (fs w) inp = false ->
  exists w',
    BaseConverter.safe_convert self inp out w = (Ret (false, Some "Invalid input file"), w') /\
    fs w' = fs w.
Proof.
  intros Hf. unfold BaseConverter.safe_convert, BaseConverter._validate_input. run.
  destruct (Path_exists (fs w) inp); simpl.
  - rewrite Hf. simpl. eexists. split; reflexivity.
  - eexists. split; reflexivity.
Qed.

Lemma safe_convert_valid (self : BaseConverter.t) (inp out : path) (w : world) :
  Path_is_file (fs w) inp = true ->
  BaseConverter.safe_convert self inp out w =
    match BaseConverter.convert self inp out w with
    | (Ret true, w') => (Ret (true, None), w')
    | (Ret false, w') => (Ret (false, Some "Conversion failed"), w')
    | (Raise e, w') =>
        (Ret (false, Some (exn_type e +:+ ": " +:+ exn_msg e)),
         add_log w' ERROR ("Error converting " +:+ str_path inp +:+ ": "
                           +:+ (exn_type e +:+ ": " +:+ exn_msg e)))
    end.
Proof.
  intros Hf. unfold BaseConverter.safe_convert.
  unfold try_except, bind at 1. rewrite (validate_input_file _ _ Hf). simpl.
  unfold bind. destruct (BaseConverter.convert self inp out w) as [[[|]|e] w']; reflexivity.
Qed.

End Valid.

Section Writing.
Context `{os : Platform}.
#[local] Existing Instance ext.

Lemma write_output_written (text : string) (out : path) (w w1 : world) :
  (mkdir (parent out) ;; open_write out text)%py w = (Ret tt, w1) ->
  BaseConverter._write_output text out w =
    (Ret true, add_log w1 DEBUG ("Successfully wrote output to: " +:+ str_path out)).
Proof.
  unfold BaseConverter._write_output. unfold try_except, bind at 1 2.
  unfold bind at 2.
  destruct (mkdir (parent out) w) as [[[]|e] w0]; [|discriminate].
  unfold bind at 1. destruct (open_write out text w0) as [[[]|e] w2]; [|discriminate].
  intros [= ->]. reflexivity.
Qed.

Lemma write_output_raised (text : string) (out : path) (w w1 : world) (e : exn) :
  (mkdir (parent out) ;; open_write out text)%py w = (Raise e, w1) ->
  BaseConverter._write_output text out w =
    (Ret false, add_log w1 ERROR ("Failed to write output to " +:+ str_path out
                                  +:+ ": " +:+ exn_msg e)).
Proof.
  unfold BaseConverter._write_output. unfold try_except, bind at 1 2.
  unfold bind at 2.
  destruct (mkdir (parent out) w) as [[[]|e0] w0].
  - unfold bind at 1. destruct (open_write out text w0) as [[[]|e1] w2]; [discriminate|].
    intros [= -> ->]. reflexivity.
  - intros [= -> ->]. reflexivity.
Qed.

Lemma write_output_returns (text : string) (out : path) (w : world) :
  exists b w', BaseConverter._write_output text out w = (Ret b, w').
Proof.
  destruct ((mkdir (parent out) ;; open_write out text)%py w) as [[[]|e] w1] eqn:E.
  - rewrite (write_output_written _ _ _ _ E). eauto.
  - rewrite (write_output_raised _ _ _ _ _ E). eauto.
Qed.

Lemma convert_with_extract_raised (c : converter_class) (extract : path -> M string)
    (inp out : path) (w w1 : world) (e : exn) :
  extract inp w = (Raise e, w1) ->
  BaseConverter.convert_with c extract inp out w =
    (Ret false, add_log w1 ERROR ("Error converting " +:+ class_name c +:+ " "
                                  +:+ str_path inp +:+ ": " +:+ exn_msg e)).
Proof.
  intros E. unfold BaseConverter.convert_with, try_except, bind at 1.
  rewrite E. reflexivity.
Qed.

Lemma convert_with_extract_text (c : converter_class) (extract : path -> M string)
    (inp out : path) (w w1 : world) (text : string) :
  extract inp w = (Ret text, w1) ->
  BaseConverter.convert_with c extract inp out w =
    if bool_decide (text = "") then (Ret false, w1)
    else BaseConverter._write_output text out w1.
Proof.
  intros E. unfold BaseConverter.convert_with, try_except, bind at 1.
  rewrite E. destruct (bool_decide (text = "")); simpl; [reflexivity|].
  destruct (write_output_returns text out w1) as (b & w2 & ->). reflexivity.
Qed.

End Writing.

Section Conversion.
Context `{os : Platform}.
#[local] Existing Instance ext.





Lemma convert_single_no_converter (self : BatchProcessor.t) (inp out : path) (w : world) :
  ConverterFactory.get_converter inp (BatchProcessor.preserve_structure self) = None ->
  BatchProcessor._convert_single self inp out w =
    (Ret (Result inp out false (Some ("No converter found for " +:+ str_path inp))),
     add_log w ERROR ("No converter found for " +:+ str_path inp)).
Proof. intros E. unfold BatchProcessor._convert_single. rewrite E. reflexivity. Qed.

Lemma convert_single_mkdir_raised (self : BatchProcessor.t) (inp out : path)
    (w w1 : world) (conv : BaseConverter.t) (e : exn) :
  ConverterFactory.get_converter inp (BatchProcessor.preserve_structure self) = Some conv ->
  mkdir (parent out) w = (Raise e, w1) ->
  BatchProcessor._convert_single self inp out w =
    (Ret (Result inp out false (Some (exn_type e +:+ ": " +:+ exn_msg e))),
     add_log w1 ERROR ("Exception converting " +:+ str_path inp +:+ ": "
                       +:+ (exn_type e +:+ ": " +:+ exn_msg e))).
Proof.
  intros E Hm. unfold BatchProcessor._convert_single. rewrite E.
  unfold try_except, bind at 1. rewrite Hm. reflexivity.
Qed.

Lemma convert_single_converted (self : BatchProcessor.t) (inp out : path)
    (w w1 w2 : world) (conv : BaseConverter.t) (ok : bool) (err : option string) :
  ConverterFactory.get_converter inp (BatchProcessor.preserve_structure self) = Some conv ->
  mkdir (parent out) w = (Ret tt, w1) ->
  BaseConverter.safe_convert conv inp out w1 = (Ret (ok, err), w2) ->
  BatchProcessor._convert_single self inp out w =
    if ok then
      (Ret (Result inp out true None),
       add_log w2 INFO ("Successfully converted: " +:+ str_path inp))
    else
      (Ret (Result inp out false err),
       add_log w2 ERROR ("Failed to convert " +:+ str_path inp +:+ ": "
                         +:+ default "None" err)).
Proof.
  intros E Hm Hs. unfold BatchProcessor._convert_single. rewrite E.
  unfold try_except, bind at 1. rewrite Hm. unfold bind at 1. rewrite Hs.
  destruct ok; reflexivity.
Qed.


End Conversion.

(** ** The worker pool *)

Section Pool.
Context `{os : Platform}.
#[local] Existing Instance ext.
Variable self : BatchProcessor.t.
Variable max_workers : nat.
Hypothesis workers : (1 <= max_workers)%nat.

Lemma refill_tasks (running queue : list (path * path)) :
  let '(running', queue') := BatchProcessor.refill max_workers running queue in
  running' ++ queue' = running ++ queue.
Proof. unfold BatchProcessor.refill. rewrite <- app_assoc, take_drop. reflexivity. Qed.

(** No more than [max_workers] calls are in flight. *)
Lemma refill_bound (running queue : list (path * path)) :
  (List.length running <= max_workers)%nat ->
  (List.length (BatchProcessor.refill max_workers running queue).1 <= max_workers)%nat.
Proof.
  clear workers. intros Hr. unfold BatchProcessor.refill. simpl.
  rewrite length_app, length_take. lia.
Qed.

Lemma refill_busy (running queue : list (path * path)) :
  (0 < List.length running + List.length queue)%nat ->
  (0 < List.length (BatchProcessor.refill max_workers running queue).1)%nat.
Proof.
  intros Hn. unfold BatchProcessor.refill. simpl.
  rewrite length_app, length_take. lia.
Qed.

Lemma yielded_permutation {A} (k : nat) (x : A) (l : list A) :
  take k l ++ x :: drop k l ≡ₚ x :: l.
Proof. rewrite <- Permutation_middle, take_drop. reflexivity. Qed.

(** Every future completes with a result, on every platform and whatever
    the schedule, and a property of the world and the results that each
    conversion keeps, wherever its result comes in the list, holds at the
    end. *)
Lemma as_completed_returns (Inv : world -> list ConversionResult -> Prop)
    (n : nat) :
  forall (sched : list nat) (running queue : list (path * path))
         (results : list ConversionResult) (w : world),
    (List.length running <= max_workers)%nat ->
    n = (List.length running + List.length queue)%nat ->
    (forall inp out w rs r w',
        (inp, out) ∈ running ++ queue -> Inv w rs ->
        BatchProcessor._convert_single self inp out w = (Ret r, w') ->
        forall rs', rs' ≡ₚ r :: rs -> Inv w' rs') ->
    Inv w results ->
    exists final w',
      BatchProcessor.as_completed self max_workers n sched running queue results w
        = (Ret final, w') /\
      map task_of final ≡ₚ map task_of results ++ (running ++ queue) /\
      Inv w' final.
Proof.
  induction n as [|n IH]; intros sched running queue results w Hr Hn Hstep Hinv.
  - destruct running; [|simpl in Hn; lia]. destruct queue; [|simpl in Hn; lia].
    exists results, w. simpl. rewrite app_nil_r. auto.
  - cbn [BatchProcessor.as_completed].
    pose proof (refill_tasks running queue) as Htasks.
    pose proof (refill_bound running queue Hr) as Hbound.
    pose proof (refill_busy running queue ltac:(lia)) as Hbusy.
    destruct (BatchProcessor.refill max_workers running queue) as [running' queue'].
    simpl in Hbound, Hbusy.
    set (i := (hd 0%nat sched mod List.length running')%nat).
    assert (Hi : (i < List.length running')%nat)
      by (apply Nat.mod_upper_bound; lia).
    destruct (lookup_lt_is_Some_2 running' i Hi) as [[inp out] Hlook].
    rewrite Hlook.
    pose proof (delete_Permutation _ _ _ Hlook) as Hperm.
    assert (Hin : (inp, out) ∈ running ++ queue).
    { rewrite <- Htasks. apply elem_of_app. left.
      eapply list_elem_of_lookup_2, Hlook. }
    destruct (convert_single_returns self inp out w) as (r & w1 & Hrun & Htask & _).
    unfold bind. rewrite Hrun.
    set (position := (List.length results -
                      (hd 0 sched / List.length running') mod S (List.length results))%nat).
    destruct (IH (tl sched) (delete i running') queue'
                 (take position results ++ r :: drop position results) w1)
      as (final & w2 & Hrest & Hp & Hinv2).
    + rewrite length_delete by eauto. lia.
    + assert (List.length running' + List.length queue'
              = List.length running + List.length queue)%nat
        by (rewrite <- !length_app, Htasks; reflexivity).
      rewrite length_delete by eauto. lia.
    + intros inp' out' w' rs' r' w'' Hin'. apply Hstep.
      rewrite <- Htasks. rewrite Hperm. simpl.
      apply elem_of_cons. right. exact Hin'.
    + eapply Hstep; eauto. apply yielded_permutation.
    + exists final, w2. split; [exact Hrest|]. split; [|exact Hinv2].
      rewrite Hp, yielded_permutation, <- Htasks. simpl. rewrite Htask.
      rewrite (Permutation_app_tail queue' Hperm). simpl.
      apply Permutation_middle.
Qed.

End Pool.

(** ** Paths and names *)

Lemma strip_prefix_app (top rel : path) : strip_prefix top (top ++ rel) = Some rel.
Proof.
  induction top as [|a top IH]; simpl; [reflexivity|].
  rewrite bool_decide_eq_true_2 by reflexivity. exact IH.
Qed.

Lemma relative_to_app (top rel : path) : relative_to (top ++ rel) top = Ret rel.
Proof. unfold relative_to. rewrite strip_prefix_app. reflexivity. Qed.

Lemma name_snoc (p : path) (f : string) : name (p ++ [f]) = f.
Proof. unfold name. apply last_last. Qed.

Lemma parent_snoc (p : path) (f : string) : parent (p ++ [f]) = p.
Proof. unfold parent. apply removelast_last. Qed.

Lemma suffix_snoc (p : path) (f : string) : suffix (p ++ [f]) = name_suffix f.
Proof. unfold suffix. rewrite name_snoc. reflexivity. Qed.

Section Names.
Context `{os : Platform}.
#[local] Existing Instance ext.

Lemma unsupported_no_suffix (p : path) :
  suffix p = "" -> ConverterFactory.is_supported p = false.
Proof.
  intros E. unfold ConverterFactory.is_supported. rewrite E.
  apply bool_decide_eq_false_2. intros [x Hx]. vm_compute in Hx. discriminate.
Qed.

Lemma supported_name (p : path) :
  ConverterFactory.is_supported p = true -> name p <> "".
Proof.
  intros Hs Hn. rewrite unsupported_no_suffix in Hs; [discriminate|].
  unfold suffix. rewrite Hn. reflexivity.
Qed.

End Names.

(** ** Discovery *)

Lemma walk_node_dir (top : path) (es : list (string * node)) :
  walk_node top (Dir es) =
    (top, dirnames es, filenames es) ::
    flat_map (fun e => walk_node (top ++ [e.1]) e.2) es.
Proof.
  simpl. f_equal. induction es as [|[nm child] es IH]; simpl; [reflexivity|].
  rewrite IH. reflexivity.
Qed.

Lemma walk_node_root (top : path) (n : node) :
  Forall (fun tr => exists rel, tr.1.1 = top ++ rel) (walk_node top n).
Proof.
  revert top n. fix IH 2. intros top [c|es].
  - constructor.
  - rewrite walk_node_dir. constructor.
    + exists []. simpl. rewrite app_nil_r. reflexivity.
    + apply Forall_flat_map. induction es as [|[nm child] es IHes]; constructor.
      * simpl. eapply Forall_impl; [apply IH|].
        intros tr [rel ->]. exists (nm :: rel). rewrite <- app_assoc. reflexivity.
      * exact IHes.
Qed.

Lemma os_walk_root (t : node) (top : path) :
  Forall (fun tr => exists rel, tr.1.1 = top ++ rel) (os_walk t top).
Proof.
  unfold os_walk. destruct (fs_lookup t top); [apply walk_node_root | constructor].
Qed.

Section Discovery.
Context `{External}.
Variable self : BatchProcessor.t.

Lemma discover_file_spec (rel : path) (docs : list (path * path)) (f : string) (w : world) :
  exists w',
    BatchProcessor.discover_file self (BatchProcessor.input_folder self ++ rel) docs f w =
      (Ret (docs ++ option_list
                      (candidate self (fs w)
                         ((BatchProcessor.input_folder self ++ rel) ++ [f]))), w') /\
    fs w' = fs w.
Proof.
  unfold BatchProcessor.discover_file, candidate.
  destruct (ConverterFactory.is_supported _) eqn:Hs; simpl.
  2: { exists w. rewrite app_nil_r. split; reflexivity. }
  assert (Hf : f <> "").
  { apply supported_name in Hs. rewrite name_snoc in Hs. exact Hs. }
  rewrite <- app_assoc, relative_to_app. run.
  unfold with_suffix. rewrite name_snoc.
  rewrite bool_decide_eq_false_2 by exact Hf.
  destruct (Path_exists (fs w) _ && negb (BatchProcessor.overwrite_existing self)); simpl.
  - eexists. rewrite app_nil_r. split; reflexivity.
  - exists w. split; reflexivity.
Qed.

Lemma discover_files_spec (rel : path) (files : list string) :
  forall (docs : list (path * path)) (w : world),
    exists w',
      for_each files
        (BatchProcessor.discover_file self (BatchProcessor.input_folder self ++ rel)) docs w =
        (Ret (docs ++ omap (candidate self (fs w))
                        (map (fun f => (BatchProcessor.input_folder self ++ rel) ++ [f])
                             files)), w') /\
      fs w' = fs w.
Proof.
  induction files as [|f files IH]; intros docs w.
  - exists w. simpl. rewrite app_nil_r. split; reflexivity.
  - cbn [for_each]. unfold bind.
    destruct (discover_file_spec rel docs f w) as (w1 & -> & Hfs).
    destruct (IH (docs ++ option_list
                            (candidate self (fs w)
                               ((BatchProcessor.input_folder self ++ rel) ++ [f]))) w1)
      as (w2 & -> & Hfs2).
    exists w2. split; [|congruence].
    rewrite Hfs, <- app_assoc. f_equal. f_equal. simpl.
    destruct (candidate self (fs w) _); reflexivity.
Qed.

Lemma discover_walk_spec (walk : list (path * list string * list string)) :
  Forall (fun tr => exists rel, tr.1.1 = BatchProcessor.input_folder self ++ rel) walk ->
  forall (docs : list (path * path)) (w : world),
    exists w',
      for_each walk
        (fun documents '(root, dirs, files) =>
           for_each files (BatchProcessor.discover_file self root) documents) docs w =
        (Ret (docs ++ omap (candidate self (fs w))
                        (flat_map (fun '(root, _, files) => map (fun f => root ++ [f]) files)
                                  walk)), w') /\
      fs w' = fs w.
Proof.
  induction 1 as [|[[root dirs] files] walk [rel Hroot] _ IH]; intros docs w.
  - exists w. simpl. rewrite app_nil_r. split; reflexivity.
  - cbn [for_each]. unfold bind. simpl in Hroot. subst root.
    destruct (discover_files_spec rel files docs w) as (w1 & -> & Hfs).
    destruct (IH (docs ++ omap (candidate self (fs w))
                          (map (fun f => (BatchProcessor.input_folder self ++ rel) ++ [f])
                               files)) w1) as (w2 & -> & Hfs2).
    exists w2. split; [|congruence].
    rewrite Hfs, <- app_assoc. f_equal. f_equal. cbn [flat_map].
    rewrite omap_app. reflexivity.
Qed.

(** Discovery returns, without touching the tree, the tasks of the files
    of the walk that pass the checks of the loop body. *)
Lemma discover_documents_spec (w : world) :
  Path_exists (fs w) (BatchProcessor.input_folder self) = true ->
  exists w',
    BatchProcessor.discover_documents self w =
      (Ret (omap (candidate self (fs w))
                 (walk_files (fs w) (BatchProcessor.input_folder self))), w') /\
    fs w' = fs w.
Proof.
  intros He. unfold BatchProcessor.discover_documents.
  unfold bind at 1. unfold exists_. cbn [os_error ideal]. rewrite He. cbn [negb].
  unfold bind at 1.
  destruct (discover_walk_spec _ (os_walk_root (fs w) (BatchProcessor.input_folder self)) [] w)
    as (w1 & -> & Hfs).
  run. simpl. eexists. split; [reflexivity|]. exact Hfs.
Qed.

Lemma discover_documents_missing (w : world) :
  Path_exists (fs w) (BatchProcessor.input_folder self) = false ->
  BatchProcessor.discover_documents self w =
    (Ret [], add_log w ERROR ("Input folder does not exist: "
                              +:+ str_path (BatchProcessor.input_folder self))).
Proof.
  intros He. unfold BatchProcessor.discover_documents.
  unfold bind at 1. unfold exists_. cbn [os_error ideal]. rewrite He. reflexivity.
Qed.

End Discovery.


(** ** The tree: lookups and the walk *)

Lemma fs_lookup_app (t : node) (p q : path) :
  fs_lookup t (p ++ q) =
    match fs_lookup t p with
    | Some n => fs_lookup n q
    | None => None
    end.
Proof.
  revert t. induction p as [|c p IH]; intros t; simpl; [reflexivity|].
  destruct t as [|es]; [reflexivity|]. destruct (entry c es); [apply IH | reflexivity].
Qed.

Lemma entry_In (nm : string) (n : node) (es : list (string * node)) :
  entry nm es = Some n -> In (nm, n) es.
Proof.
  induction es as [|[k m] es IH]; simpl; [discriminate|].
  case_bool_decide; [intros [= ->]; subst; left; reflexivity | right; auto].
Qed.

Lemma entry_filenames (f c : string) (es : list (string * node)) :
  entry f es = Some (File c) -> In f (filenames es).
Proof.
  intros E. apply entry_In in E. unfold filenames.
  apply in_map_iff. exists (f, File c). split; [reflexivity|].
  apply list_elem_of_In, list_elem_of_filter. split; [reflexivity|].
  apply list_elem_of_In, E.
Qed.

Lemma lookup_walk_node (rel : path) :
  forall (top : path) (n : node) (f c : string),
    fs_lookup n (rel ++ [f]) = Some (File c) ->
    exists dirs files, In (top ++ rel, dirs, files) (walk_node top n) /\ In f files.
Proof.
  induction rel as [|d rel IH]; intros top n f c; simpl.
  - destruct n as [|es]; [discriminate|].
    destruct (entry f es) as [[c'|]|] eqn:E; try discriminate.
    intros _. exists (dirnames es), (filenames es). rewrite app_nil_r. split.
    + left. reflexivity.
    + eapply entry_filenames, E.
  - destruct n as [|es]; [discriminate|].
    destruct (entry d es) as [child|] eqn:E; [|discriminate].
    intros Hl. destruct (IH (top ++ [d]) child f c Hl) as (dirs & files & Hin & Hf).
    exists dirs, files. split; [|exact Hf].
    rewrite walk_node_dir. right. apply in_flat_map.
    exists (d, child). split; [eapply entry_In, E|].
    simpl. rewrite <- app_assoc in Hin. exact Hin.
Qed.

(** A file below [top] is met by the walk from [top]. *)
Lemma lookup_walk_files (t : node) (top rel : path) (f c : string) :
  fs_lookup t (top ++ rel ++ [f]) = Some (File c) ->
  In (top ++ rel ++ [f]) (walk_files t top).
Proof.
  rewrite fs_lookup_app. unfold walk_files, os_walk.
  destruct (fs_lookup t top) as [n|]; [|discriminate].
  intros Hl. destruct (lookup_walk_node rel top n f c Hl) as (dirs & files & Hin & Hf).
  apply in_flat_map. exists (top ++ rel, dirs, files). split; [exact Hin|].
  apply in_map_iff. exists f. split; [|exact Hf]. rewrite app_assoc. reflexivity.
Qed.

Lemma walk_files_below (t : node) (top p : path) :
  In p (walk_files t top) -> exists rel f, p = top ++ rel ++ [f].
Proof.
  unfold walk_files. intros Hin. apply in_flat_map in Hin as ([[root dirs] files] & Hin & Hp).
  apply in_map_iff in Hp as (f & <- & _).
  pose proof (os_walk_root t top) as Hroot. rewrite Forall_forall in Hroot.
  destruct (Hroot _ (proj2 (list_elem_of_In _ _) Hin)) as [rel Hrel]. simpl in Hrel. subst root.
  exists rel, f. rewrite app_assoc. reflexivity.
Qed.

Section Candidates.
Context `{os : Platform}.
#[local] Existing Instance ext.
Variable self : BatchProcessor.t.

(** The loop body on a supported file below the input folder. *)
Lemma candidate_supported (t : node) (rel : path) (f : string) :
  let inp := BatchProcessor.input_folder self ++ rel ++ [f] in
  ConverterFactory.is_supported inp = true ->
  candidate self t inp =
    if Path_exists t (output_for self (rel ++ [f]))
       && negb (BatchProcessor.overwrite_existing self)
    then None
    else Some (inp, output_for self (rel ++ [f])).
Proof.
  intros inp Hs. unfold candidate, output_for. rewrite Hs. cbn [negb].
  unfold inp. rewrite relative_to_app. unfold with_suffix.
  rewrite bool_decide_eq_false_2; [reflexivity|].
  rewrite name_snoc. apply supported_name in Hs. unfold inp in Hs.
  rewrite app_assoc, name_snoc in Hs. exact Hs.
Qed.

Lemma candidate_inv (t : node) (p : path) (task : path * path) :
  candidate self t p = Some task ->
  In p (walk_files t (BatchProcessor.input_folder self)) ->
  exists rel f,
    p = BatchProcessor.input_folder self ++ rel ++ [f] /\
    ConverterFactory.is_supported p = true /\
    task = (p, output_for self (rel ++ [f])) /\
    Path_exists t (output_for self (rel ++ [f]))
      && negb (BatchProcessor.overwrite_existing self) = false.
Proof.
  intros Hc Hin. destruct (walk_files_below _ _ _ Hin) as (rel & f & ->).
  exists rel, f. split; [reflexivity|].
  destruct (ConverterFactory.is_supported
              (BatchProcessor.input_folder self ++ rel ++ [f])) eqn:Hs.
  2: { unfold candidate in Hc. rewrite Hs in Hc. discriminate. }
  split; [reflexivity|].
  rewrite (candidate_supported t rel f Hs) in Hc.
  destruct (Path_exists t _ && negb _); [discriminate|].
  injection Hc as <-. split; reflexivity.
Qed.

End Candidates.

(** Discovery on a platform whose [os.stat] may fail: it raises the first
    failure among the existence tests it makes, and is the discovery of
    the ideal platform when there is none. *)
Section DiscoveryOs.
Context `{os : Platform}.
#[local] Existing Instance ext.
Variable self : BatchProcessor.t.


Lemma first_stat_error_None (ps : list path) :
  first_stat_error ps = None <-> forall p, p ∈ ps -> os_error Stat p = None.
Proof.
  induction ps as [|p ps IH]; simpl.
  - split; [intros _ q Hq; apply elem_of_nil in Hq; contradiction | reflexivity].
  - destruct (os_error Stat p) eqn:E.
    + split; [discriminate|]. intros Hall. rewrite <- E. apply Hall. left.
    + rewrite IH. split.
      * intros Hall q Hq. apply elem_of_cons in Hq as [->|Hq]; auto.
      * intros Hall q Hq. apply Hall. right. exact Hq.
Qed.








End DiscoveryOs.

(** ** The batch *)

Section Batch.
Context `{os : Platform}.
#[local] Existing Instance ext.
Variable self : BatchProcessor.t.
Hypothesis workers : (1 <= BatchProcessor.batch_size self)%Z.

Lemma process_batch_returns (Inv : world -> list ConversionResult -> Prop)
    (sched : list nat) (documents : list (path * path)) (w : world) :
  (forall w rs lv msg, Inv w rs -> Inv (add_log w lv msg) rs) ->
  (forall inp out w rs r w',
      (inp, out) ∈ documents -> Inv w rs ->
      BatchProcessor._convert_single self inp out w = (Ret r, w') ->
      forall rs', rs' ≡ₚ r :: rs -> Inv w' rs') ->
  Inv w [] ->
  exists results w',
    BatchProcessor.process_batch self sched documents w = (Ret results, w') /\
    map task_of results ≡ₚ documents /\
    Inv w' results.
Proof.
  intros Hlog Hstep Hinv. destruct documents as [|d docs].
  - exists [], w. auto.
  - unfold BatchProcessor.process_batch, BatchProcessor.log_memory_status.
    unfold bind at 1. unfold logger at 1.
    unfold bind at 1.
    destruct (BatchProcessor.batch_size self <=? 0)%Z eqn:Hb; [lia|].
    unfold ret at 1. unfold bind at 1.
    destruct (as_completed_returns self (Z.to_nat (BatchProcessor.batch_size self))
                ltac:(lia) Inv (List.length (d :: docs)) sched [] (d :: docs) []
                (add_log w INFO "Memory Status"))
      as (rs & w1 & Hrun & Hperm & Hinv1).
    + simpl. lia.
    + reflexivity.
    + exact Hstep.
    + apply Hlog, Hinv.
    + unfold add_log in Hrun. cbn [app] in Hrun. rewrite Hrun.
      exists rs, (add_log w1 INFO "Memory Status"). split; [reflexivity|].
      split; [exact Hperm|]. apply Hlog, Hinv1.
Qed.

End Batch.

Section Run.
Context `{External}.
Variable self : BatchProcessor.t.
Hypothesis workers : (1 <= BatchProcessor.batch_size self)%Z.

Lemma process_all_returns (sched : list nat) (w : world) :
  exists d w',
    BatchProcessor.process_all self sched w = (Ret d, w') /\
    Forall (fun r => success r = true /\ error r = None) (successful d) /\
    Forall (fun r => success r = false /\ exists msg, error r = Some msg /\ msg <> "")
           (failed d).
Proof.
  unfold BatchProcessor.process_all. unfold bind at 1.
  assert (Hdisc : exists docs w1, BatchProcessor.discover_documents self w = (Ret docs, w1)).
  { destruct (Path_exists (fs w) (BatchProcessor.input_folder self)) eqn:He.
    - destruct (discover_documents_spec self w He) as (w1 & -> & _). eauto.
    - rewrite (discover_documents_missing self w He). eauto. }
  destruct Hdisc as (docs & w1 & ->).
  destruct docs as [|d docs].
  - eexists _, _. split; [reflexivity|]. split; constructor.
  - unfold bind at 1.
    destruct (process_batch_returns self workers (fun _ rs => Forall result_ok rs) sched
                (d :: docs) w1)
      as (results & w2 & -> & _ & Hok).
    + auto.
    + intros inp out w0 rs r w' _ Hrs Hrun rs' Hperm. rewrite Hperm.
      constructor; [|exact Hrs].
      destruct (convert_single_returns self inp out w0) as (r0 & w0' & Hrun0 & _ & Hr0).
      congruence.
    + constructor.
    + eexists _, _. split; [reflexivity|]. cbn [successful failed].
      split; apply Forall_forall; intros r Hr; apply list_elem_of_filter in Hr as [Hs Hr];
        rewrite Forall_forall in Hok; destruct (Hok r Hr) as [Ht Hf]; auto.
Qed.

End Run.

(** ** The claims on the conversion of one document and on the batch *)

(** C1. Result-count conservation: [process_batch] returns one
    [ConversionResult] for each of the N submitted tasks -- the tasks of the
    results are a permutation of the submitted ones -- whatever the
    converters do and in whatever order the futures complete.  The pool
    size is that of a validated configuration (at least 1). *)
Theorem process_batch_result_count `{External} (self : BatchProcessor.t)
    (sched : list nat) (documents : list (path * path)) (w : world) :
  (1 <= BatchProcessor.batch_size self)%Z ->
  exists results w',
    BatchProcessor.process_batch self sched documents w = (Ret results, w') /\
    List.length results = List.length documents /\
    map task_of results ≡ₚ documents.
Proof.
  intros Hb.
  destruct (process_batch_returns self Hb (fun _ _ => True) sched documents w)
    as (results & w' & Hrun & Hperm & _); auto.
  exists results, w'. split; [exact Hrun|]. split; [|exact Hperm].
  rewrite <- (Permutation_length Hperm), length_map. reflexivity.
Qed.


(** C10. Every [ConversionResult] the batch processor produces has
    [error = None] when [success] is true and a non-empty error string when
    [success] is false: for one conversion, for the results of a batch, and
    so for the entries of ['successful'] and of ['failed']. *)
Theorem conversion_result_invariant `{External} (self : BatchProcessor.t)
    (sched : list nat) (w : world) :
  (1 <= BatchProcessor.batch_size self)%Z ->
  (forall inp out, exists r w',
      BatchProcessor._convert_single self inp out w = (Ret r, w') /\ result_ok r) /\
  (forall documents, exists results w',
      BatchProcessor.process_batch self sched documents w = (Ret results, w') /\
      Forall result_ok results) /\
  (exists d w',
      BatchProcessor.process_all self sched w = (Ret d, w') /\
      Forall (fun r => success r = true /\ error r = None) (successful d) /\
      Forall (fun r => success r = false /\ exists msg, error r = Some msg /\ msg <> "")
             (failed d)).
Proof.
  intros Hb. split; [|split].
  - intros inp out. destruct (convert_single_returns self inp out w) as (r & w' & E & _ & Hok).
    eauto.
  - intros documents.
    destruct (process_batch_returns self Hb (fun _ rs => Forall result_ok rs) sched documents w)
      as (results & w' & E & _ & Hok).
    + auto.
    + intros inp out w0 rs r w1 _ Hrs Hrun rs' Hperm. rewrite Hperm.
      constructor; [|exact Hrs].
      destruct (convert_single_returns self inp out w0) as (r0 & w0' & Hrun0 & _ & Hr0).
      congruence.
    + constructor.
    + eauto.
  - apply process_all_returns, Hb.
Qed.

(** C8. A task whose input path has no registered converter gets a failed
    result naming the missing converter, the tree is left as it was (only a
    log record is added) and nothing is raised; a conversion that changes
    the tree is the conversion of a task that has a converter. *)
Theorem unsupported_format_frame `{External} (self : BatchProcessor.t) (inp out : path)
    (w : world) :
  (ConverterFactory.get_converter inp (BatchProcessor.preserve_structure self) = None ->
   exists w',
     BatchProcessor._convert_single self inp out w =
       (Ret (Result inp out false (Some ("No converter found for " +:+ str_path inp))), w') /\
     fs w' = fs w) /\
  (forall r w',
      BatchProcessor._convert_single self inp out w = (Ret r, w') ->
      fs w' <> fs w ->
      is_Some (ConverterFactory.get_converter inp (BatchProcessor.preserve_structure self))).
Proof.
  split.
  - intros Hc. rewrite (convert_single_no_converter _ _ _ _ Hc). eexists. split; reflexivity.
  - intros r w' Hrun Hfs.
    destruct (ConverterFactory.get_converter inp (BatchProcessor.preserve_structure self))
      as [conv|] eqn:Hc; [eauto|].
    rewrite (convert_single_no_converter _ _ _ _ Hc) in Hrun.
    injection Hrun as _ <-. contradiction Hfs. reflexivity.
Qed.

(** The scenario of the specification, run with the futures completing in
    the order c.docx, a.pdf, b.xyz. *)
Example sample_batch :
  (@BatchProcessor.process_batch sample_external sample_processor [2; 0; 0]
     sample_documents sample_world).1 =
  Ret [ Result ["in"; "c.docx"] ["out"; "c.txt"] false (Some "Conversion failed");
        Result ["in"; "a.pdf"] ["out"; "a.txt"] true None;
        Result ["in"; "b.xyz"] ["out"; "b.txt"] false
               (Some "No converter found for in/b.xyz") ].
Proof. vm_compute. reflexivity. Qed.

Lemma process_batch_result_count_witness :
  (1 <= BatchProcessor.batch_size sample_processor)%Z /\
  exists results w',
    @BatchProcessor.process_batch sample_external sample_processor [2; 0; 0]
      sample_documents sample_world = (Ret results, w') /\
    List.length results = List.length sample_documents /\
    map task_of results ≡ₚ sample_documents.
Proof.
  split; [simpl; lia|].
  apply (@process_batch_result_count sample_external). simpl. lia.
Defined.


Lemma conversion_result_invariant_witness :
  (1 <= BatchProcessor.batch_size sample_processor)%Z /\
  exists d w',
    @BatchProcessor.process_all sample_external sample_processor [2; 0; 0] sample_world
      = (Ret d, w') /\
    Forall (fun r => success r = true /\ error r = None) (successful d) /\
    Forall (fun r => success r = false /\ exists msg, error r = Some msg /\ msg <> "")
           (failed d).
Proof.
  split; [simpl; lia|].
  apply (@conversion_result_invariant sample_external sample_processor [2; 0; 0] sample_world).
  simpl. lia.
Defined.

Lemma unsupported_format_frame_witness :
  @ConverterFactory.get_converter sample_external ["in"; "b.xyz"] true = None /\
  exists w',
    @BatchProcessor._convert_single sample_external sample_processor
      ["in"; "b.xyz"] ["out"; "b.txt"] sample_world =
      (Ret (Result ["in"; "b.xyz"] ["out"; "b.txt"] false
                   (Some ("No converter found for " +:+ str_path ["in"; "b.xyz"]))), w') /\
    fs w' = fs sample_world.
Proof.
  assert (Hc : @ConverterFactory.get_converter sample_external ["in"; "b.xyz"] true = None)
    by (vm_compute; reflexivity).
  split; [exact Hc|].
  apply (@unsupported_format_frame sample_external sample_processor
           ["in"; "b.xyz"] ["out"; "b.txt"] sample_world).
  exact Hc.
Defined.

(** ** The report *)

(** C7. With no result at all the report is returned, nothing is raised and
    the line of the success rate reads N/A: the division is not evaluated
    and the float formatting is not consulted.  A report is returned for
    every dictionary of results. *)
Theorem report_without_results `{External} :
  BatchProcessor.generate_report (Results [] []) =
    Ret (join newline
           [ newline +:+ repeat_char "=" 60;
             "CONVERSION REPORT";
             repeat_char "=" 60;
             "Total documents: 0";
             "Successful: 0";
             "Failed: 0";
             "N/A";
             repeat_char "=" 60;
             repeat_char "=" 60 +:+ newline ]) /\
  (forall results, exists report, BatchProcessor.generate_report results = Ret report).
Proof.
  split; [reflexivity|].
  intros [ok ko]. unfold BatchProcessor.generate_report. cbn [successful failed].
  destruct (0 <? List.length ok + List.length ko)%nat eqn:Ht.
  - apply Nat.ltb_lt in Ht. unfold truediv.
    destruct (List.length ok + List.length ko)%nat; [lia|]. eauto.
  - eauto.
Qed.

(** ** The size of the pool *)

Lemma init_spec `{Platform} (inf outf : path) (b : Z) (mem : Q) (ps se ov : bool) (w : world) :
  BatchProcessor.__init__ inf outf b mem ps se ov w =
    match mkdir outf w with
    | (Ret _, w') => (Ret (BatchProcessor.Build inf outf (Z.min b 10) mem ps se ov), w')
    | (Raise e, w') => (Raise e, w')
    end.
Proof.
  unfold BatchProcessor.__init__, bind. destruct (mkdir outf w) as [[[]|e] w']; reflexivity.
Qed.

Lemma validate_config_batch_size `{Platform} (cfg : Config.t) (w : world) :
  (Config.batch_size cfg < 1)%Z \/ (50 < Config.batch_size cfg)%Z ->
  Config._validate_config cfg w =
    (Raise (ValueError "batch_size must be between 1 and 50"), w).
Proof.
  intros Hb. unfold Config._validate_config. unfold bind at 1.
  assert ((Config.batch_size cfg <? 1)%Z || (50 <? Config.batch_size cfg)%Z = true) as ->.
  { apply orb_true_iff. destruct Hb; [left | right]; apply Z.ltb_lt; assumption. }
  reflexivity.
Qed.

(** C3, as the code has it.  The processor keeps [min(batch_size, 10)]:
    a configured value of at least 1 gives a pool of 1 to 10 workers, a
    value above 10 is cut to 10, a processor built with 25 is the one
    built with 10 and its pool never has more than 10 calls in flight.
    A value below 1 is kept as it is by the processor; the
    validation of the configuration refuses it (as it refuses one above
    50). *)
Theorem batch_size_capped `{Platform} (inf outf : path) (b : Z) (mem : Q)
    (ps se ov : bool) (w : world) :
  (1 <= b)%Z ->
  (forall self w',
      BatchProcessor.__init__ inf outf b mem ps se ov w = (Ret self, w') ->
      BatchProcessor.batch_size self = Z.min b 10 /\
      (1 <= BatchProcessor.batch_size self <= 10)%Z) /\
  BatchProcessor.__init__ inf outf 25 mem ps se ov w =
    BatchProcessor.__init__ inf outf 10 mem ps se ov w /\
  (forall b', (10 <= b')%Z ->
      BatchProcessor.__init__ inf outf b' mem ps se ov w =
        BatchProcessor.__init__ inf outf 10 mem ps se ov w) /\
  (forall self w' running queue,
      BatchProcessor.__init__ inf outf b mem ps se ov w = (Ret self, w') ->
      let max_workers := Z.to_nat (BatchProcessor.batch_size self) in
      (List.length running <= max_workers)%nat ->
      (List.length (BatchProcessor.refill max_workers running queue).1 <= 10)%nat) /\
  (forall b' self w', (b' < 1)%Z ->
      BatchProcessor.__init__ inf outf b' mem ps se ov w = (Ret self, w') ->
      BatchProcessor.batch_size self = b') /\
  (forall cfg : Config.t,
      (Config.batch_size cfg < 1)%Z ->
      Config._validate_config cfg w =
        (Raise (ValueError "batch_size must be between 1 and 50"), w)).
Proof.
  intros Hb. split; [|split; [|split; [|split; [|split]]]].
  - intros self w'. rewrite init_spec.
    destruct (mkdir outf w) as [[[]|e] w1]; [|discriminate].
    intros [= <- _]. simpl. lia.
  - rewrite !init_spec. reflexivity.
  - intros b' Hb'. rewrite !init_spec. replace (Z.min b' 10) with 10%Z by lia. reflexivity.
  - intros self w' running queue. rewrite init_spec.
    destruct (mkdir outf w) as [[[]|e] w1]; [|discriminate].
    intros [= <- _] max_workers Hrun.
    pose proof (refill_bound max_workers running queue Hrun) as Hfill.
    simpl in max_workers. lia.
  - intros b' self w' Hb'. rewrite init_spec.
    destruct (mkdir outf w) as [[[]|e] w1]; [|discriminate].
    intros [= <- _]. simpl. lia.
  - intros cfg Hc. apply validate_config_batch_size. left. exact Hc.
Qed.

Lemma batch_size_capped_witness :
  (1 <= 25)%Z /\
  @BatchProcessor.__init__ sample_external
    ["in"] ["out"] 25 (10 # 1)%Q true true false sample_world =
  @BatchProcessor.__init__ sample_external
    ["in"] ["out"] 10 (10 # 1)%Q true true false sample_world.
Proof.
  split; [lia|].
  destruct (@batch_size_capped sample_external
              ["in"] ["out"] 25 (10 # 1)%Q true true false sample_world)
    as (_ & Hsame & _); [lia | exact Hsame].
Defined.

(** C3 as stated fails: a processor configured with 0 workers keeps 0, which
    is not in [1,10], and its pool refuses to start. *)
Lemma batch_size_zero_not_clamped :
  exists self w',
    @BatchProcessor.__init__ sample_external
      ["in"] ["out"] 0 (10 # 1)%Q true true false sample_world = (Ret self, w') /\
    BatchProcessor.batch_size self = 0%Z /\
    ~ (1 <= BatchProcessor.batch_size self <= 10)%Z /\
    (@BatchProcessor.process_batch sample_external self [] sample_documents w').1 =
      Raise (ValueError "max_workers must be greater than 0").
Proof.
  eexists _, _. split; [vm_compute; reflexivity|]. split; [reflexivity|].
  split; [simpl; lia|]. vm_compute. reflexivity.
Qed.

(** ** A missing input folder *)

(** C4, as the code has it.  When the input folder does not exist,
    [discover_documents] logs an error and returns the empty list without
    raising -- no error value comes with it -- and [process_all] then logs
    a warning and returns the two empty lists: no task is attempted and the
    tree is unchanged. *)
Theorem discovery_missing_root `{External} (self : BatchProcessor.t) (sched : list nat)
    (w : world) :
  Path_exists (fs w) (BatchProcessor.input_folder self) = false ->
  let w1 := add_log w ERROR ("Input folder does not exist: "
                              +:+ str_path (BatchProcessor.input_folder self)) in
  BatchProcessor.discover_documents self w = (Ret [], w1) /\
  BatchProcessor.process_all self sched w =
    (Ret (Results [] []), add_log w1 WARNING "No documents found to convert") /\
  fs (add_log w1 WARNING "No documents found to convert") = fs w.
Proof.
  intros He w1. split; [|split].
  - apply discover_documents_missing, He.
  - unfold BatchProcessor.process_all, bind at 1.
    rewrite (discover_documents_missing self w He). reflexivity.
  - reflexivity.
Qed.

Lemma discovery_missing_root_witness :
  Path_exists (fs sample_world) (BatchProcessor.input_folder lost_processor) = false /\
  @BatchProcessor.discover_documents sample_external lost_processor sample_world =
    (Ret [], add_log sample_world ERROR "Input folder does not exist: nowhere").
Proof.
  split; [reflexivity|].
  apply (@discovery_missing_root sample_external lost_processor [] sample_world).
  reflexivity.
Defined.

(** C4 as stated fails: what the caller receives for a missing input folder
    is what it receives for an input folder that exists and is empty, at
    [discover_documents] and at [process_all]; no error is returned. *)
Lemma missing_root_indistinguishable :
  Path_exists (fs sample_world) (BatchProcessor.input_folder lost_processor) = false /\
  Path_exists (fs empty_input_world) (BatchProcessor.input_folder lost_processor) = true /\
  (@BatchProcessor.discover_documents sample_external lost_processor sample_world).1 = Ret [] /\
  (@BatchProcessor.discover_documents sample_external lost_processor empty_input_world).1
    = Ret [] /\
  (@BatchProcessor.process_all sample_external lost_processor [] sample_world).1 =
  (@BatchProcessor.process_all sample_external lost_processor [] empty_input_world).1.
Proof. repeat split; vm_compute; reflexivity. Qed.

(** ** The overwrite policy of discovery *)

Section Overwrite.
Context `{os : Platform}.
#[local] Existing Instance ext.
Variable self : BatchProcessor.t.

Lemma discovered_inv (t : node) (inp out : path) :
  (inp, out) ∈ omap (candidate self t) (walk_files t (BatchProcessor.input_folder self)) ->
  exists rel f,
    inp = BatchProcessor.input_folder self ++ rel ++ [f] /\
    out = output_for self (rel ++ [f]) /\
    In inp (walk_files t (BatchProcessor.input_folder self)) /\
    ConverterFactory.is_supported inp = true /\
    Path_exists t out && negb (BatchProcessor.overwrite_existing self) = false.
Proof.
  intros Hin. apply list_elem_of_omap in Hin as (p & Hp & Hc).
  apply list_elem_of_In in Hp.
  destruct (candidate_inv self t p _ Hc Hp) as (rel & f & -> & Hs & [= -> ->] & Hex).
  exists rel, f. auto.
Qed.

Lemma discovered_intro (t : node) (rel : path) (f : string) :
  let inp := BatchProcessor.input_folder self ++ rel ++ [f] in
  In inp (walk_files t (BatchProcessor.input_folder self)) ->
  ConverterFactory.is_supported inp = true ->
  Path_exists t (output_for self (rel ++ [f]))
    && negb (BatchProcessor.overwrite_existing self) = false ->
  (inp, output_for self (rel ++ [f]))
    ∈ omap (candidate self t) (walk_files t (BatchProcessor.input_folder self)).
Proof.
  intros inp Hin Hs Hex. apply list_elem_of_omap. exists inp.
  split; [apply list_elem_of_In, Hin|].
  unfold inp. rewrite (candidate_supported self t rel f Hs), Hex. reflexivity.
Qed.

End Overwrite.



(** C5 as stated fails: with [overwrite_existing] set, a Markdown file
    with a name of 255 bytes is below the input folder and of a supported
    format, and no task is emitted for it: the existence test of its
    output path, whose name has 256 bytes, raises and discovery raises
    with it, the task of the document before it lost too. *)
Lemma discovery_stops_at_long_name :
  BatchProcessor.overwrite_existing overwriting_processor = true /\
  fs_lookup (fs long_name_world) ["in"; long_stem +:+ ".md"] = Some (File "Hello") /\
  @ConverterFactory.is_supported sample_faulty ["in"; long_stem +:+ ".md"] = true /\
  name_too_long ["in"; long_stem +:+ ".md"] = None /\
  exists e w',
    @BatchProcessor.discover_documents sample_faulty overwriting_processor long_name_world
      = (Raise e, w') /\
    exn_type e = "OSError".
Proof.
  split; [reflexivity|]. split; [vm_compute; reflexivity|].
  split; [vm_compute; reflexivity|]. split; [vm_compute; reflexivity|].
  eexists _, _. split; [vm_compute; reflexivity | reflexivity].
Qed.

(** ** The tree: making directories and writing files *)

Lemma entry_set_entry_eq (k : string) (n : node) (es : list (string * node)) :
  entry k (set_entry k n es) = Some n.
Proof.
  induction es as [|[k' m] es IH]; simpl.
  - rewrite bool_decide_eq_true_2; reflexivity.
  - case_bool_decide as Hk; simpl.
    + rewrite bool_decide_eq_true_2; [reflexivity | exact Hk].
    + rewrite bool_decide_eq_false_2; [exact IH | exact Hk].
Qed.

Lemma entry_set_entry_ne (k k' : string) (n : node) (es : list (string * node)) :
  k <> k' -> entry k' (set_entry k n es) = entry k' es.
Proof.
  intros Hne. induction es as [|[k0 m] es IH]; simpl.
  - rewrite bool_decide_eq_false_2; [reflexivity | exact Hne].
  - case_bool_decide as Hk; simpl.
    + subst k0. rewrite !bool_decide_eq_false_2 by exact Hne. reflexivity.
    + case_bool_decide; [reflexivity | exact IH].
Qed.

Lemma set_entry_same (k : string) (n : node) (es : list (string * node)) :
  entry k es = Some n -> set_entry k n es = es.
Proof.
  induction es as [|[k' m] es IH]; simpl; [discriminate|].
  case_bool_decide; [intros [= ->]; reflexivity | intros E; rewrite (IH E); reflexivity].
Qed.



Lemma fs_lookup_cons (c : string) (q : path) (es : list (string * node)) :
  fs_lookup (Dir es) (c :: q) =
    match entry c es with
    | Some child => fs_lookup child q
    | None => None
    end.
Proof. reflexivity. Qed.

Lemma lookup_empty_dir (q : path) (c : string) : fs_lookup (Dir []) q <> Some (File c).
Proof. destruct q; discriminate. Qed.

(** [mkdir] makes directories only: the files of the tree are the same
    before and after. *)
Lemma makedirs_files (whole p : path) :
  forall (n n' : node) (q : path) (c : string),
    makedirs whole n p = Ret n' ->
    (fs_lookup n' q = Some (File c) <-> fs_lookup n q = Some (File c)).
Proof.
  induction p as [|d p IH]; intros n n' q c.
  - destruct n; simpl; intros [= <-]. reflexivity.
  - destruct n as [|es]; simpl; [discriminate|].
    destruct (makedirs whole (default (Dir []) (entry d es)) p) as [child|e] eqn:Hm;
      [|discriminate].
    intros [= <-]. destruct q as [|k q]; [simpl; split; discriminate|].
    rewrite !fs_lookup_cons. destruct (decide (d = k)) as [<-|Hne].
    + rewrite entry_set_entry_eq, (IH _ _ q c Hm).
      destruct (entry d es); simpl; [reflexivity|].
      split; [intros E; contradiction (lookup_empty_dir _ _ E) | discriminate].
    + rewrite (entry_set_entry_ne _ _ _ _ Hne). reflexivity.
Qed.


(** Making a directory that was just made changes nothing. *)
Lemma makedirs_again (whole whole' p : path) :
  forall (n n' : node),
    makedirs whole n p = Ret n' -> makedirs whole' n' p = Ret n'.
Proof.
  induction p as [|d p IH]; intros n n'.
  - destruct n; simpl; intros [= <-]. reflexivity.
  - destruct n as [|es]; simpl; [discriminate|].
    destruct (makedirs whole (default (Dir []) (entry d es)) p) as [child|e] eqn:Hm;
      [|discriminate].
    intros [= <-]. simpl. rewrite entry_set_entry_eq. simpl.
    rewrite (IH _ _ Hm). f_equal. f_equal.
    apply set_entry_same, entry_set_entry_eq.
Qed.

Lemma write_file_written (whole : path) (text : string) (p : path) :
  forall (n n' : node),
    write_file whole text n p = Ret n' -> fs_lookup n' p = Some (File text).
Proof.
  induction p as [|d p IH]; intros n n'.
  - destruct n; simpl; intros [= <-]. reflexivity.
  - destruct n as [|es]; simpl; [discriminate|].
    destruct (entry d es) as [child|] eqn:Hd.
    + destruct (write_file whole text child p) as [child'|e] eqn:Hw; [|discriminate].
      intros [= <-]. simpl. rewrite entry_set_entry_eq. apply (IH _ _ Hw).
    + destruct p; [|discriminate]. intros [= <-]. simpl.
      rewrite entry_set_entry_eq. reflexivity.
Qed.

(** Writing a file changes the file at the path written and no other. *)
Lemma write_file_files (whole : path) (text : string) (p : path) :
  forall (n n' : node) (q : path) (c : string),
    write_file whole text n p = Ret n' ->
    fs_lookup n' q = Some (File c) ->
    q = p \/ fs_lookup n q = Some (File c).
Proof.
  induction p as [|d p IH]; intros n n' q c.
  - destruct n; simpl; intros [= <-]. destruct q; [left; reflexivity | discriminate].
  - destruct n as [|es]; simpl; [discriminate|].
    destruct (entry d es) as [child|] eqn:Hd.
    + destruct (write_file whole text child p) as [child'|e] eqn:Hw; [|discriminate].
      intros [= <-]. destruct q as [|k q]; [discriminate|].
      rewrite !fs_lookup_cons. destruct (decide (d = k)) as [<-|Hne].
      * rewrite entry_set_entry_eq, Hd. intros Hl.
        destruct (IH _ _ q c Hw Hl) as [->|Hq]; [left; reflexivity | right; exact Hq].
      * rewrite (entry_set_entry_ne _ _ _ _ Hne). auto.
    + destruct p; [|discriminate]. intros [= <-]. destruct q as [|k q]; [discriminate|].
      rewrite !fs_lookup_cons. destruct (decide (d = k)) as [<-|Hne].
      * rewrite entry_set_entry_eq. destruct q; [left; reflexivity | discriminate].
      * rewrite (entry_set_entry_ne _ _ _ _ Hne). auto.
Qed.


Lemma read_file_lookup (whole p : path) :
  forall (n : node) (c : string),
    fs_lookup n p = Some (File c) -> read_file whole n p = Ret c.
Proof.
  induction p as [|d p IH]; intros n c.
  - simpl. intros [= ->]. reflexivity.
  - destruct n as [|es]; simpl; [discriminate|].
    destruct (entry d es); [apply IH | discriminate].
Qed.

(** ** The fallback of the MOBI converter *)

Section Mobi.
Context `{External}.

Lemma get_converter_mobi (p : path) (ps : bool) :
  lower (suffix p) = ".mobi" ->
  ConverterFactory.get_converter p ps = Some (MOBIConverter.new ps).
Proof. intros E. unfold ConverterFactory.get_converter. rewrite E. reflexivity. Qed.

Lemma mobi_extract_text_fallback (ps : bool) (inp : path) (content : string) (e : exn)
    (w : world) :
  fs_lookup (fs w) inp = Some (File content) ->
  mobi_primary_raises ps content e ->
  MOBIConverter._extract_text ps inp w =
    (Ret (decode_utf8_ignore content),
     add_log w ERROR ("Error extracting MOBI content: " +:+ exn_msg e)).
Proof.
  intros Hl Hraise. unfold MOBIConverter._extract_text, temporary_directory.
  cbn [mkdtemp_error rmtree_error ext ideal].
  unfold try_except at 1. unfold bind at 1. unfold open_read at 1.
  cbn [os_error ideal]. rewrite (read_file_lookup inp inp _ _ Hl).
  assert (Hprimary :
    (html <- lift (mobi_extract content) ;;
     match html with
     | Some html_content => lift (parse MOBI ps html_content)
     | None =>
         logger ERROR ("Failed to extract MOBI content from " +:+ str_path inp) ;; ret ""
     end)%py w = (Raise e, w)).
  { unfold bind, lift.
    destruct Hraise as [-> | (html & -> & ->)]; reflexivity. }
  rewrite Hprimary. unfold bind at 1. unfold logger at 1.
  unfold try_except, bind, open_read. cbn [os_error ideal]. simpl.
  rewrite (read_file_lookup inp inp _ _ Hl). reflexivity.
Qed.

End Mobi.

(** C9. For a MOBI input whose primary extraction raises, the converter
    decodes the bytes of the input file; when the decoded text is not empty
    and the output file can be written, the text is written to the output
    path and the task gets the result of a successful conversion,
    [success = true] with [error = None].  Only a log record tells of the
    fallback. *)
Theorem mobi_fallback_is_success `{External} (self : BatchProcessor.t) (inp out : path)
    (content : string) (e : exn) (t1 t2 : node) (w : world) :
  lower (suffix inp) = ".mobi" ->
  fs_lookup (fs w) inp = Some (File content) ->
  mobi_primary_raises (BatchProcessor.preserve_structure self) content e ->
  decode_utf8_ignore content <> "" ->
  makedirs (parent out) (fs w) (parent out) = Ret t1 ->
  write_file out (decode_utf8_ignore content) t1 out = Ret t2 ->
  exists w',
    BatchProcessor._convert_single self inp out w = (Ret (Result inp out true None), w') /\
    fs w' = t2 /\
    fs_lookup (fs w') out = Some (File (decode_utf8_ignore content)) /\
    (ERROR, "Error extracting MOBI content: " +:+ exn_msg e) ∈ log w'.
Proof.
  intros Hext Hl Hraise Htext Hmk Hwr.
  pose proof (get_converter_mobi inp (BatchProcessor.preserve_structure self) Hext) as Hc.
  assert (Hm : mkdir (parent out) w = (Ret tt, World t1 (log w)))
    by (unfold mkdir; rewrite Hmk; reflexivity).
  set (w1 := World t1 (log w)) in *.
  assert (Hl1 : fs_lookup (fs w1) inp = Some (File content))
    by (apply (makedirs_files _ _ _ _ _ _ Hmk), Hl).
  assert (Hf : Path_is_file (fs w1) inp = true)
    by (unfold Path_is_file; rewrite Hl1; reflexivity).
  set (w2 := add_log w1 ERROR ("Error extracting MOBI content: " +:+ exn_msg e)).
  set (w3 := add_log (World t2 (log w2)) DEBUG
                     ("Successfully wrote output to: " +:+ str_path out)).
  assert (Hs : BaseConverter.safe_convert
                 (MOBIConverter.new (BatchProcessor.preserve_structure self)) inp out w1
               = (Ret (true, None), w3)).
  { rewrite (safe_convert_valid _ _ _ _ Hf). simpl. unfold MOBIConverter.convert.
    rewrite (convert_with_extract_text _ _ _ _ _ _ _
               (mobi_extract_text_fallback _ _ _ _ _ Hl1 Hraise)).
    rewrite bool_decide_eq_false_2 by exact Htext.
    rewrite (write_output_written _ _ _ (World t2 (log w2))); [reflexivity|].
    unfold bind, mkdir, open_write. simpl.
    rewrite (makedirs_again _ (parent out) _ _ _ Hmk). simpl. rewrite Hwr. reflexivity. }
  rewrite (convert_single_converted _ _ _ _ _ _ _ _ _ Hc Hm Hs).
  eexists. split; [reflexivity|]. split; [reflexivity|]. split.
  - simpl. apply (write_file_written _ _ _ _ _ Hwr).
  - simpl. rewrite !elem_of_app. left. left. right. apply list_elem_of_singleton. reflexivity.
Qed.

Lemma mobi_fallback_is_success_witness :
  lower (suffix ["in"; "book.mobi"]) = ".mobi" /\
  fs_lookup garbled_tree ["in"; "book.mobi"] = Some (File "not a book") /\
  @mobi_primary_raises sample_external true "not a book" (Exn "MobiError" "not a MOBI file") /\
  exists w',
    @BatchProcessor._convert_single sample_external sample_processor
      ["in"; "book.mobi"] ["out"; "book.txt"] (World garbled_tree [])
      = (Ret (Result ["in"; "book.mobi"] ["out"; "book.txt"] true None), w') /\
    fs_lookup (fs w') ["out"; "book.txt"] = Some (File "not a book").
Proof.
  assert (Hraise : @mobi_primary_raises sample_external true "not a book"
                     (Exn "MobiError" "not a MOBI file")) by (left; reflexivity).
  split; [reflexivity|]. split; [reflexivity|]. split; [exact Hraise|].
  destruct (@mobi_fallback_is_success sample_external sample_processor
              ["in"; "book.mobi"] ["out"; "book.txt"] "not a book"
              (Exn "MobiError" "not a MOBI file")
              (Dir [("in", Dir [("book.mobi", File "not a book")]); ("out", Dir [])])
              (Dir [("in", Dir [("book.mobi", File "not a book")]);
                    ("out", Dir [("book.txt", File "not a book")])])
              (World garbled_tree []))
    as (w' & Hrun & _ & Hout & _);
    [reflexivity | reflexivity | exact Hraise | discriminate | reflexivity | reflexivity |].
  exists w'. split; [exact Hrun | exact Hout].
Defined.

(** ** Trees with unique names *)












(** ** Output paths are not inputs *)

Lemma rfind_dot_txt (s : string) : rfind "." (s +:+ ".txt") = Some (String.length s).
Proof. induction s as [|a s IH]; simpl; [reflexivity|]. rewrite IH. reflexivity. Qed.

Lemma substring_skip (s t : string) (n : nat) :
  substring (String.length s) n (s +:+ t) = substring 0 n t.
Proof. induction s as [|a s IH]; simpl; [reflexivity | exact IH]. Qed.

Lemma length_append (s t : string) :
  String.length (s +:+ t) = (String.length s + String.length t)%nat.
Proof. induction s as [|a s IH]; simpl; [reflexivity | rewrite IH; reflexivity]. Qed.

Lemma name_suffix_txt (s : string) :
  name_suffix (s +:+ ".txt") = "" \/ name_suffix (s +:+ ".txt") = ".txt".
Proof.
  unfold name_suffix. rewrite rfind_dot_txt.
  destruct ((0 <? String.length s)%nat && _); [right | left; reflexivity].
  rewrite substring_skip, length_append. simpl.
  replace (String.length s + 4 - String.length s)%nat with 4%nat by lia. reflexivity.
Qed.

Section Outputs.
Context `{os : Platform}.
#[local] Existing Instance ext.

Lemma output_unsupported (self : BatchProcessor.t) (rel : path) :
  ConverterFactory.is_supported (output_for self rel) = false.
Proof.
  unfold output_for. rewrite app_assoc.
  assert (Hs : suffix ((BatchProcessor.output_folder self ++ parent rel)
                         ++ [name_with_suffix (name rel) ".txt"]) = "" \/
               suffix ((BatchProcessor.output_folder self ++ parent rel)
                         ++ [name_with_suffix (name rel) ".txt"]) = ".txt").
  { rewrite suffix_snoc. unfold name_with_suffix.
    destruct (name_suffix (name rel)); apply name_suffix_txt. }
  destruct Hs as [Hs|Hs].
  - apply unsupported_no_suffix, Hs.
  - unfold ConverterFactory.is_supported. rewrite Hs.
    apply bool_decide_eq_false_2. intros [x Hx]. vm_compute in Hx. discriminate.
Qed.

End Outputs.

(** ** What a conversion does to the tree *)

Section Effects.
Context `{External}.

Lemma extract_text_fs (c : converter_class) (ps : bool) (inp : path) (w : world) :
  exists o w', extract_text_of c ps inp w = (o, w') /\ fs w' = fs w.
Proof.
  assert (Hlib : forall c', exists o w',
             LibraryConverter._extract_text c' ps inp w = (o, w') /\ fs w' = fs w).
  { intros c'. unfold LibraryConverter._extract_text. run.
    destruct (read_file inp (fs w) inp) as [content|e]; [|eauto].
    destruct (parse c' ps content); eauto. }
  destruct c; try apply Hlib.
  unfold extract_text_of, MOBIConverter._extract_text. run.
  destruct (read_file inp (fs w) inp) as [content|e] eqn:Hr; simpl; rewrite ?Hr; simpl.
  - destruct (mobi_extract content) as [[html|]|e]; simpl; rewrite ?Hr; simpl.
    + destruct (parse MOBI ps html); simpl; rewrite ?Hr; simpl; eauto.
    + eauto.
    + eauto.
  - eauto.
Qed.

Lemma write_output_effect (text : string) (out : path) (w : world) (t1 : node) :
  makedirs (parent out) (fs w) (parent out) = Ret t1 ->
  exists b w', BaseConverter._write_output text out w = (Ret b, w') /\
    (if b then write_file out text t1 out = Ret (fs w')
     else fs w' = fs w \/ fs w' = t1).
Proof.
  intros Hmk.
  destruct ((mkdir (parent out) ;; open_write out text)%py w) as [[[]|e] w1] eqn:E.
  - rewrite (write_output_written _ _ _ _ E). exists true. eexists. split; [reflexivity|].
    revert E. unfold bind, mkdir, open_write. rewrite Hmk. simpl.
    destruct (write_file out text t1 out); intros [= <-]. reflexivity.
  - rewrite (write_output_raised _ _ _ _ _ E). exists false. eexists. split; [reflexivity|].
    revert E. unfold bind, mkdir, open_write. rewrite Hmk. simpl.
    destruct (write_file out text t1 out); intros [= _ <-]. right. reflexivity.
Qed.




End Effects.

(** ** Running the batch again *)

Section Rerun.
Context `{External}.
Variable self : BatchProcessor.t.
Hypothesis workers : (1 <= BatchProcessor.batch_size self)%Z.



End Rerun.




(** The same happens whatever the parsing libraries do: a file in the
    place of the output directory makes the conversion fail, no output is
    written, and the task is discovered again. *)
Example rerun_blocked_output `{External} :
  let blocked := World (Dir [("in", Dir [("sub", Dir [("a.pdf", File "x")])]);
                             ("out", Dir [("sub", File "")])]) [] in
  exists w1,
    BatchProcessor.process_all sample_processor [] blocked =
      (Ret (Results []
              [Result ["in"; "sub"; "a.pdf"] ["out"; "sub"; "a.txt"] false
                 (Some "FileExistsError: [Errno 17] File exists: 'out/sub'")]), w1) /\
    (BatchProcessor.discover_documents sample_processor w1).1 =
      Ret [(["in"; "sub"; "a.pdf"], ["out"; "sub"; "a.txt"])].
Proof. eexists. split; vm_compute; reflexivity. Qed.

(* ===================================================================== *)
(** * Further properties of the code *)
(* ===================================================================== *)

(** ** Names and their suffixes *)

Lemma substring_prefix (s t : string) : substring 0 (String.length s) (s +:+ t) = s.
Proof.
  induction s as [|a s IH]; simpl; [destruct t; reflexivity | rewrite IH; reflexivity].
Qed.

Lemma substring_full (s : string) : substring 0 (String.length s) s = s.
Proof. induction s as [|a s IH]; simpl; [reflexivity | rewrite IH; reflexivity]. Qed.

Lemma substring_split (s : string) :
  forall i, (i <= String.length s)%nat ->
    s = substring 0 i s +:+ substring i (String.length s - i) s.
Proof.
  induction s as [|a s IH]; intros [|i] Hi; simpl in *; try lia.
  - reflexivity.
  - rewrite substring_full. reflexivity.
  - change (String a s =
            String a (substring 0 i s +:+ substring i (String.length s - i) s)).
    f_equal. apply IH. lia.
Qed.

Lemma length_substring_prefix (s : string) :
  forall i, (i <= String.length s)%nat -> String.length (substring 0 i s) = i.
Proof.
  induction s as [|a s IH]; intros [|i] Hi; simpl in *; try lia.
  rewrite IH; lia.
Qed.

Lemma rfind_bound (c : ascii) (s : string) (i : nat) :
  rfind c s = Some i -> (i < String.length s)%nat.
Proof.
  revert i. induction s as [|a s IH]; simpl; [discriminate|].
  intros i. destruct (rfind c s) as [j|].
  - intros [= <-]. specialize (IH j eq_refl). lia.
  - destruct (Ascii.eqb a c); [intros [= <-]; lia | discriminate].
Qed.

(** A name with a suffix is a non-empty stem followed by the suffix. *)
Lemma name_suffix_split (f : string) :
  name_suffix f <> "" ->
  exists stem, stem <> "" /\ f = stem +:+ name_suffix f.
Proof.
  unfold name_suffix. destruct (rfind "." f) as [i|] eqn:Hr; [|congruence].
  destruct ((0 <? i)%nat && (i <? String.length f - 1)%nat) eqn:Hi; [|congruence].
  intros _. apply andb_true_iff in Hi as [Hpos _]. apply Nat.ltb_lt in Hpos.
  pose proof (rfind_bound _ _ _ Hr) as Hlt.
  exists (substring 0 i f). split.
  - intros E. pose proof (length_substring_prefix f i ltac:(lia)) as Hl.
    rewrite E in Hl. simpl in Hl. lia.
  - apply substring_split. lia.
Qed.

(** Replacing the suffix keeps the stem. *)
Lemma name_with_suffix_stem (f stem sfx : string) :
  name_suffix f <> "" -> f = stem +:+ name_suffix f ->
  name_with_suffix f sfx = stem +:+ sfx.
Proof.
  intros Hne Hf. unfold name_with_suffix.
  remember (name_suffix f) as old eqn:Hold.
  destruct old as [|a old]; [congruence|]. clear Hold Hne. subst f.
  rewrite length_append.
  replace (String.length stem + String.length (String a old) - String.length (String a old))%nat
    with (String.length stem) by lia.
  rewrite substring_prefix. reflexivity.
Qed.

Section Supported.
Context `{os : Platform}.
#[local] Existing Instance ext.

Lemma supported_has_suffix (p : path) :
  ConverterFactory.is_supported p = true -> suffix p <> "".
Proof.
  intros Hs E. rewrite (unsupported_no_suffix p E) in Hs. discriminate.
Qed.

End Supported.

(** ** The tasks of discovery *)

Section Tasks.
Context `{External}.
Variable self : BatchProcessor.t.

Lemma output_for_snoc (rel : path) (f : string) :
  output_for self (rel ++ [f]) =
    BatchProcessor.output_folder self ++ rel ++ [name_with_suffix f ".txt"].
Proof. unfold output_for. rewrite parent_snoc, name_snoc. reflexivity. Qed.

Lemma discover_documents_tasks (w w' : world) (docs : list (path * path)) :
  BatchProcessor.discover_documents self w = (Ret docs, w') ->
  forall inp out, (inp, out) ∈ docs ->
    exists rel f,
      inp = BatchProcessor.input_folder self ++ rel ++ [f] /\
      out = output_for self (rel ++ [f]) /\
      In inp (walk_files (fs w) (BatchProcessor.input_folder self)) /\
      ConverterFactory.is_supported inp = true /\
      Path_exists (fs w) out && negb (BatchProcessor.overwrite_existing self) = false.
Proof.
  intros Hrun inp out Hin.
  destruct (Path_exists (fs w) (BatchProcessor.input_folder self)) eqn:He.
  - destruct (discover_documents_spec self w He) as (w1 & Hspec & _).
    rewrite Hspec in Hrun. injection Hrun as <- _.
    apply discovered_inv, Hin.
  - rewrite (discover_documents_missing self w He) in Hrun. injection Hrun as <- _.
    apply elem_of_nil in Hin. contradiction.
Qed.

End Tasks.

(** X1. The filter of discovery and the dispatch of the worker agree: a
    path is supported exactly when the factory has a converter for it, so
    every task discovery returns has a converter. *)
Theorem discovered_tasks_have_converters `{External} (self : BatchProcessor.t)
    (w w' : world) (docs : list (path * path)) :
  BatchProcessor.discover_documents self w = (Ret docs, w') ->
  (forall p ps, ConverterFactory.is_supported p = true <->
                is_Some (ConverterFactory.get_converter p ps)) /\
  (forall inp out, (inp, out) ∈ docs ->
     is_Some (ConverterFactory.get_converter inp (BatchProcessor.preserve_structure self))).
Proof.
  intros Hrun. split; [intros p ps; apply is_supported_get_converter|].
  intros inp out Hin.
  destruct (discover_documents_tasks self _ _ _ Hrun _ _ Hin) as (rel & f & _ & _ & _ & Hs & _).
  apply is_supported_get_converter, Hs.
Qed.

Lemma discovered_tasks_have_converters_witness :
  exists docs w',
    @BatchProcessor.discover_documents sample_external sample_processor sample_world
      = (Ret docs, w') /\
    forall inp out, (inp, out) ∈ docs ->
      is_Some (@ConverterFactory.get_converter sample_external inp true).
Proof.
  eexists _, _. split; [vm_compute; reflexivity|].
  refine (proj2 (@discovered_tasks_have_converters sample_external sample_processor
                   sample_world _ _ _)).
  vm_compute. reflexivity.
Defined.

(** X3. The output path of a discovered task mirrors its input path: the
    input is [input_folder / rel / (stem + suffix)] with a non-empty stem,
    the output is [output_folder / rel / (stem + ".txt")], and the output
    path is never itself a supported input. *)
Theorem discovered_output_mirrors_input `{External} (self : BatchProcessor.t)
    (w w' : world) (docs : list (path * path)) :
  BatchProcessor.discover_documents self w = (Ret docs, w') ->
  forall inp out, (inp, out) ∈ docs ->
    exists rel stem sfx,
      stem <> "" /\ sfx <> "" /\ name_suffix (stem +:+ sfx) = sfx /\
      inp = BatchProcessor.input_folder self ++ rel ++ [stem +:+ sfx] /\
      out = BatchProcessor.output_folder self ++ rel ++ [stem +:+ ".txt"] /\
      ConverterFactory.is_supported out = false.
Proof.
  intros Hrun inp out Hin.
  destruct (discover_documents_tasks self _ _ _ Hrun _ _ Hin)
    as (rel & f & -> & -> & _ & Hs & _).
  assert (Hsfx : name_suffix f <> "").
  { apply supported_has_suffix in Hs. rewrite app_assoc, suffix_snoc in Hs. exact Hs. }
  destruct (name_suffix_split f Hsfx) as (stem & Hstem & Hf).
  exists rel, stem, (name_suffix f). rewrite <- Hf.
  split; [exact Hstem|]. split; [exact Hsfx|]. split; [reflexivity|].
  split; [reflexivity|]. split; [|apply output_unsupported].
  rewrite output_for_snoc, (name_with_suffix_stem f stem ".txt" Hsfx Hf). reflexivity.
Qed.

Lemma discovered_output_mirrors_input_witness :
  exists docs w',
    @BatchProcessor.discover_documents sample_external sample_processor sample_world
      = (Ret docs, w') /\
    forall inp out, (inp, out) ∈ docs ->
      exists rel stem sfx,
        stem <> "" /\ sfx <> "" /\ name_suffix (stem +:+ sfx) = sfx /\
        inp = BatchProcessor.input_folder sample_processor ++ rel ++ [stem +:+ sfx] /\
        out = BatchProcessor.output_folder sample_processor ++ rel ++ [stem +:+ ".txt"] /\
        @ConverterFactory.is_supported sample_external out = false.
Proof.
  eexists _, _. split; [vm_compute; reflexivity|].
  refine (@discovered_output_mirrors_input sample_external sample_processor
            sample_world _ _ _).
  vm_compute. reflexivity.
Defined.

(** X4. Output paths are not unique: two supported files of one directory
    whose names have the same stem (a.pdf and a.docx) get the same output
    path, and discovery returns both tasks when that path is free or
    [overwrite_existing] is set. *)
Theorem same_stem_same_output `{External} (self : BatchProcessor.t) (w : world)
    (rel : path) (stem f1 f2 c1 c2 : string) :
  let inp1 := BatchProcessor.input_folder self ++ rel ++ [f1] in
  let inp2 := BatchProcessor.input_folder self ++ rel ++ [f2] in
  let out := BatchProcessor.output_folder self ++ rel ++ [stem +:+ ".txt"] in
  f1 = stem +:+ name_suffix f1 -> f2 = stem +:+ name_suffix f2 ->
  fs_lookup (fs w) inp1 = Some (File c1) -> fs_lookup (fs w) inp2 = Some (File c2) ->
  ConverterFactory.is_supported inp1 = true -> ConverterFactory.is_supported inp2 = true ->
  Path_exists (fs w) out && negb (BatchProcessor.overwrite_existing self) = false ->
  exists docs w',
    BatchProcessor.discover_documents self w = (Ret docs, w') /\
    (inp1, out) ∈ docs /\ (inp2, out) ∈ docs.
Proof.
  intros inp1 inp2 out Hf1 Hf2 Hl1 Hl2 Hs1 Hs2 Hfree.
  assert (Hout : forall f, ConverterFactory.is_supported
                             (BatchProcessor.input_folder self ++ rel ++ [f]) = true ->
                           f = stem +:+ name_suffix f ->
                           output_for self (rel ++ [f]) = out).
  { intros f Hs Hf. rewrite output_for_snoc.
    rewrite (name_with_suffix_stem f stem ".txt"); [reflexivity| |exact Hf].
    apply supported_has_suffix in Hs. rewrite app_assoc, suffix_snoc in Hs. exact Hs. }
  assert (He : Path_exists (fs w) (BatchProcessor.input_folder self) = true).
  { unfold inp1 in Hl1. rewrite fs_lookup_app in Hl1. unfold Path_exists.
    destruct (fs_lookup (fs w) (BatchProcessor.input_folder self)); [reflexivity | discriminate]. }
  destruct (discover_documents_spec self w He) as (w' & Hrun & _).
  eexists _, w'. split; [exact Hrun|]. split.
  - rewrite <- (Hout f1 Hs1 Hf1). apply discovered_intro; auto.
    + apply (lookup_walk_files _ _ _ _ _ Hl1).
    + rewrite (Hout f1 Hs1 Hf1). exact Hfree.
  - rewrite <- (Hout f2 Hs2 Hf2). apply discovered_intro; auto.
    + apply (lookup_walk_files _ _ _ _ _ Hl2).
    + rewrite (Hout f2 Hs2 Hf2). exact Hfree.
Qed.

Lemma same_stem_same_output_witness :
  "a.pdf" = "a" +:+ name_suffix "a.pdf" /\
  "a.docx" = "a" +:+ name_suffix "a.docx" /\
  exists docs w',
    @BatchProcessor.discover_documents sample_external sample_processor (World twin_tree [])
      = (Ret docs, w') /\
    (["in"; "a.pdf"], ["out"; "a.txt"]) ∈ docs /\
    (["in"; "a.docx"], ["out"; "a.txt"]) ∈ docs.
Proof.
  split; [reflexivity|]. split; [reflexivity|].
  apply (@same_stem_same_output sample_external sample_processor (World twin_tree [])
           [] "a" "a.pdf" "a.docx" "Hello" "World"); vm_compute; reflexivity.
Defined.

(** Both conversions succeed and the file that remains is the one written
    last: which one is the scheduler's choice. *)
Example same_stem_last_write_wins :
  let docs := [(["in"; "a.pdf"], ["out"; "a.txt"]); (["in"; "a.docx"], ["out"; "a.txt"])] in
  let run sched :=
    @BatchProcessor.process_batch sample_external sample_processor sched docs
      (World twin_tree []) in
  map success (match (run [0; 0]%nat).1 with Ret rs => rs | Raise _ => [] end) = [true; true] /\
  fs_lookup (fs (run [0; 0]%nat).2) ["out"; "a.txt"] = Some (File "World") /\
  fs_lookup (fs (run [1; 0]%nat).2) ["out"; "a.txt"] = Some (File "Hello").
Proof. repeat split; vm_compute; reflexivity. Qed.

(** ** The effect of one conversion in full *)

Lemma write_file_keeps (whole : path) (text : string) (p : path) :
  forall (n n' : node) (q : path) (c : string),
    write_file whole text n p = Ret n' -> q <> p ->
    fs_lookup n q = Some (File c) -> fs_lookup n' q = Some (File c).
Proof.
  induction p as [|d p IH]; intros n n' q c.
  - destruct n; simpl; intros [= <-] Hq; destruct q; [congruence | discriminate].
  - destruct n as [|es]; simpl; [discriminate|].
    destruct (entry d es) as [child|] eqn:Hd.
    + destruct (write_file whole text child p) as [child'|e] eqn:Hw; [|discriminate].
      intros [= <-] Hq. destruct q as [|k q]; [discriminate|].
      rewrite !fs_lookup_cons. destruct (decide (d = k)) as [<-|Hne].
      * rewrite entry_set_entry_eq, Hd. apply (IH _ _ q c Hw). congruence.
      * rewrite (entry_set_entry_ne _ _ _ _ Hne). auto.
    + destruct p; [|discriminate]. intros [= <-] Hq. destruct q as [|k q]; [discriminate|].
      rewrite !fs_lookup_cons. destruct (decide (d = k)) as [<-|Hne].
      * rewrite Hd. discriminate.
      * rewrite (entry_set_entry_ne _ _ _ _ Hne). auto.
Qed.

Lemma makedirs_raises (whole p : path) :
  forall (n : node) (e : exn),
    makedirs whole n p = Raise e ->
    e = FileExistsError whole \/ e = NotADirectoryError whole.
Proof.
  induction p as [|d p IH]; intros n e.
  - destruct n; simpl; [intros [= <-]; left; reflexivity | discriminate].
  - destruct n as [|es]; simpl; [intros [= <-]; right; reflexivity|].
    destruct (makedirs whole (default (Dir []) (entry d es)) p) eqn:Hm; [discriminate|].
    intros [= <-]. eapply IH, Hm.
Qed.

Section Cases.
Context `{External}.

(** The five ways a conversion ends. *)
Lemma convert_single_cases (self : BatchProcessor.t) (inp out : path) (w w' : world)
    (r : ConversionResult) :
  BatchProcessor._convert_single self inp out w = (Ret r, w') ->
  let ps := BatchProcessor.preserve_structure self in
  (ConverterFactory.get_converter inp ps = None /\
   r = Result inp out false (Some ("No converter found for " +:+ str_path inp)) /\
   fs w' = fs w) \/
  (exists e,
     is_Some (ConverterFactory.get_converter inp ps) /\
     makedirs (parent out) (fs w) (parent out) = Raise e /\
     r = Result inp out false (Some (exn_type e +:+ ": " +:+ exn_msg e)) /\
     fs w' = fs w) \/
  (exists t1,
     is_Some (ConverterFactory.get_converter inp ps) /\
     makedirs (parent out) (fs w) (parent out) = Ret t1 /\
     Path_is_file t1 inp = false /\
     r = Result inp out false (Some "Invalid input file") /\
     fs w' = t1) \/
  (exists t1,
     is_Some (ConverterFactory.get_converter inp ps) /\
     makedirs (parent out) (fs w) (parent out) = Ret t1 /\
     Path_is_file t1 inp = true /\
     r = Result inp out false (Some "Conversion failed") /\
     fs w' = t1) \/
  (exists t1 text,
     is_Some (ConverterFactory.get_converter inp ps) /\
     makedirs (parent out) (fs w) (parent out) = Ret t1 /\
     Path_is_file t1 inp = true /\
     text <> "" /\
     write_file out text t1 out = Ret (fs w') /\
     r = Result inp out true None).
Proof.
  intros Hrun ps. subst ps.
  destruct (ConverterFactory.get_converter inp (BatchProcessor.preserve_structure self))
    as [conv|] eqn:Hc.
  2: { rewrite (convert_single_no_converter _ _ _ _ Hc) in Hrun.
       injection Hrun as <- <-. left. auto. }
  right.
  destruct (makedirs (parent out) (fs w) (parent out)) as [t1|e] eqn:Hmk.
  2: { rewrite (convert_single_mkdir_raised self inp out w w conv e Hc) in Hrun
         by (unfold mkdir; rewrite Hmk; reflexivity).
       injection Hrun as <- <-. left. exists e. eauto. }
  right.
  assert (Hm : mkdir (parent out) w = (Ret tt, World t1 (log w)))
    by (unfold mkdir; rewrite Hmk; reflexivity).
  destruct (Path_is_file t1 inp) eqn:Hf.
  2: { destruct (safe_convert_invalid conv inp out (World t1 (log w)) Hf) as (w2 & Hs & Hfs).
       rewrite (convert_single_converted _ _ _ _ _ _ _ _ _ Hc Hm Hs) in Hrun.
       injection Hrun as <- <-. left. exists t1. simpl. eauto 10. }
  right.
  assert (Hs : exists b err w2,
             BaseConverter.safe_convert conv inp out (World t1 (log w)) = (Ret (b, err), w2) /\
             (if b then exists text, text <> "" /\ write_file out text t1 out = Ret (fs w2)
              else err = Some "Conversion failed" /\ fs w2 = t1)).
  { rewrite (safe_convert_valid conv inp out (World t1 (log w)) Hf).
    rewrite (get_converter_registered _ _ _ Hc). simpl.
    destruct (extract_text_fs (BaseConverter.cls conv)
                (BatchProcessor.preserve_structure self) inp (World t1 (log w)))
      as ([text|e] & w2 & Hx & Hfs).
    - rewrite (convert_with_extract_text _ _ _ _ _ _ _ Hx).
      case_bool_decide as Ht.
      + exists false. eexists _, _. split; [reflexivity|]. split; [reflexivity | exact Hfs].
      + destruct (write_output_effect text out w2 t1) as ([|] & w3 & -> & Hw).
        * rewrite Hfs. simpl. apply (makedirs_again _ _ _ _ _ Hmk).
        * exists true. eexists _, _. split; [reflexivity|]. eauto.
        * exists false. eexists _, _. split; [reflexivity|]. split; [reflexivity|].
          destruct Hw as [->| ->]; [exact Hfs | reflexivity].
    - rewrite (convert_with_extract_raised _ _ _ _ _ _ _ Hx).
      exists false. eexists _, _. split; [reflexivity|]. split; [reflexivity | exact Hfs]. }
  destruct Hs as (b & err & w2 & Hs & Hb).
  rewrite (convert_single_converted _ _ _ _ _ _ _ _ _ Hc Hm Hs) in Hrun.
  destruct b; injection Hrun as <- <-.
  - right. destruct Hb as (text & Ht & Hw). exists t1, text. simpl. eauto 10.
  - left. destruct Hb as [-> Hfs]. exists t1. simpl. eauto 10.
Qed.

End Cases.

(** The cause of the failed extraction is in the log only. *)
Example extraction_cause_logged :
  let '(o, w') := @BatchProcessor._convert_single sample_external sample_processor
                    ["in"; "c.docx"] ["out"; "c.txt"] sample_world in
  o = Ret (Result ["in"; "c.docx"] ["out"; "c.txt"] false (Some "Conversion failed")) /\
  log w' = [(ERROR, "Error converting DOCX in/c.docx: unreadable document");
            (ERROR, "Failed to convert in/c.docx: Conversion failed")].
Proof. vm_compute. split; reflexivity. Qed.

(** ** The order and the partition of the results *)

Lemma bind_cong {A B} (m1 m2 : M A) (k1 k2 : A -> M B) (w : world) :
  (forall w0, m1 w0 = m2 w0) -> (forall a w', k1 a w' = k2 a w') ->
  bind m1 k1 w = bind m2 k2 w.
Proof.
  intros Hm Hk. unfold bind. rewrite Hm. destruct (m2 w) as [[a|e] w']; [apply Hk | reflexivity].
Qed.

Section Order.
Context `{External}.
Variable self : BatchProcessor.t.

Lemma partition_permutation (l : list ConversionResult) :
  filter (fun r => success r = true) l ++ filter (fun r => success r = false) l ≡ₚ l.
Proof.
  induction l as [|r l IH]; [reflexivity|].
  destruct (success r) eqn:Hs.
  - rewrite (filter_cons_True (fun r => success r = true)) by exact Hs.
    rewrite (filter_cons_False (fun r => success r = false)) by congruence.
    simpl. rewrite IH. reflexivity.
  - rewrite (filter_cons_False (fun r => success r = true)) by congruence.
    rewrite (filter_cons_True (fun r => success r = false)) by exact Hs.
    rewrite <- Permutation_middle, IH. reflexivity.
Qed.

Lemma as_completed_advisory (mem : Q) (skip : bool) (max_workers n : nat) :
  forall (sched : list nat) (running queue : list (path * path))
         (results : list ConversionResult) (w : world),
    BatchProcessor.as_completed (with_advisory self mem skip) max_workers n sched
      running queue results w =
    BatchProcessor.as_completed self max_workers n sched running queue results w.
Proof.
  induction n as [|n IH]; intros sched running queue results w; [reflexivity|].
  cbn [BatchProcessor.as_completed].
  destruct (BatchProcessor.refill max_workers running queue) as [running' queue'].
  destruct (running' !! (hd 0%nat sched mod List.length running')%nat) as [[inp out]|];
    [|reflexivity].
  unfold bind.
  change (BatchProcessor._convert_single (with_advisory self mem skip) inp out w)
    with (BatchProcessor._convert_single self inp out w).
  destruct (BatchProcessor._convert_single self inp out w) as [[r|e] w1]; [apply IH | reflexivity].
Qed.

End Order.

(** X10. [process_batch] raises in one case only: a non-empty batch on a
    processor whose batch size is 0 or less.  It then raises the
    [ValueError] of the thread pool after the first memory record, and no
    document has been converted.  An empty batch returns at once, whatever
    the batch size. *)
Theorem process_batch_raises_iff `{External} (self : BatchProcessor.t)
    (sched : list nat) (documents : list (path * path)) (w : world) :
  (is_ret (BatchProcessor.process_batch self sched documents w).1 = false <->
   documents <> [] /\ (BatchProcessor.batch_size self <= 0)%Z) /\
  (documents <> [] -> (BatchProcessor.batch_size self <= 0)%Z ->
   BatchProcessor.process_batch self sched documents w =
     (Raise (ValueError "max_workers must be greater than 0"),
      add_log w INFO "Memory Status")) /\
  (documents = [] -> BatchProcessor.process_batch self sched documents w = (Ret [], w)).
Proof.
  assert (Hraise : documents <> [] -> (BatchProcessor.batch_size self <= 0)%Z ->
            BatchProcessor.process_batch self sched documents w =
              (Raise (ValueError "max_workers must be greater than 0"),
               add_log w INFO "Memory Status")).
  { intros Hd Hb. destruct documents as [|d docs]; [congruence|].
    unfold BatchProcessor.process_batch, BatchProcessor.log_memory_status.
    unfold bind at 1. unfold logger at 1. unfold bind at 1.
    destruct (BatchProcessor.batch_size self <=? 0)%Z eqn:E; [reflexivity | lia]. }
  split; [|split; [exact Hraise | intros ->; reflexivity]]. split.
  - intros Hno. destruct documents as [|d docs]; [discriminate|].
    split; [discriminate|].
    destruct (Z_le_gt_dec (BatchProcessor.batch_size self) 0) as [Hle|Hgt]; [exact Hle|].
    destruct (process_batch_returns self ltac:(lia) (fun _ _ => True) sched (d :: docs) w)
      as (results & w' & Hrun & _); auto.
    rewrite Hrun in Hno. discriminate.
  - intros [Hd Hb]. rewrite (Hraise Hd Hb). reflexivity.
Qed.

Lemma process_batch_raises_iff_witness :
  sample_documents <> [] /\
  (BatchProcessor.batch_size (BatchProcessor.Build ["in"] ["out"] (-1) (10 # 1)%Q
                                true true false) <= 0)%Z /\
  @BatchProcessor.process_batch sample_external
    (BatchProcessor.Build ["in"] ["out"] (-1) (10 # 1)%Q true true false)
    [] sample_documents sample_world =
    (Raise (ValueError "max_workers must be greater than 0"),
     add_log sample_world INFO "Memory Status").
Proof.
  split; [discriminate|]. split; [simpl; lia|].
  refine (proj1 (proj2 (@process_batch_raises_iff sample_external _ _ _ _)) _ _).
  - discriminate.
  - simpl. lia.
Defined.

(** X11. [process_all] puts every discovered document in exactly one of the
    two lists: the tasks of ['successful'] followed by those of ['failed']
    are a permutation of the discovered tasks, the first list holds the
    results with [success] true and the second those with [success]
    false. *)
Theorem process_all_partition `{External} (self : BatchProcessor.t)
    (sched : list nat) (w : world) :
  (1 <= BatchProcessor.batch_size self)%Z ->
  exists docs w0 d w',
    BatchProcessor.discover_documents self w = (Ret docs, w0) /\
    BatchProcessor.process_all self sched w = (Ret d, w') /\
    map task_of (successful d ++ failed d) ≡ₚ docs /\
    (List.length (successful d) + List.length (failed d) = List.length docs)%nat /\
    Forall (fun r => success r = true) (successful d) /\
    Forall (fun r => success r = false) (failed d).
Proof.
  intros Hb.
  assert (Hdisc : exists docs w0, BatchProcessor.discover_documents self w = (Ret docs, w0)).
  { destruct (Path_exists (fs w) (BatchProcessor.input_folder self)) eqn:He.
    - destruct (discover_documents_spec self w He) as (w0 & E & _). eauto.
    - rewrite (discover_documents_missing self w He). eauto. }
  destruct Hdisc as (docs & w0 & Hdisc). exists docs, w0.
  unfold BatchProcessor.process_all. unfold bind at 1. rewrite Hdisc.
  destruct docs as [|d0 docs].
  - eexists _, _. split; [reflexivity|]. split; [reflexivity|]. simpl.
    split; [reflexivity|]. split; [reflexivity|]. split; constructor.
  - unfold bind at 1.
    destruct (process_batch_returns self Hb (fun _ _ => True) sched (d0 :: docs) w0)
      as (results & w1 & -> & Hperm & _); auto.
    eexists _, _. split; [reflexivity|]. split; [reflexivity|]. cbn [successful failed].
    assert (Hall : map task_of (filter (fun r => success r = true) results ++
                                filter (fun r => success r = false) results)
                   ≡ₚ d0 :: docs).
    { rewrite <- Hperm. apply Permutation_map, partition_permutation. }
    split; [exact Hall|]. split.
    + rewrite <- length_app, <- (length_map task_of). apply Permutation_length, Hall.
    + split; apply Forall_forall; intros r Hr; apply list_elem_of_filter in Hr as [Hs _];
        exact Hs.
Qed.

Lemma process_all_partition_witness :
  (1 <= BatchProcessor.batch_size sample_processor)%Z /\
  exists docs w0 d w',
    @BatchProcessor.discover_documents sample_external sample_processor sample_world
      = (Ret docs, w0) /\
    @BatchProcessor.process_all sample_external sample_processor [1; 0]%nat sample_world
      = (Ret d, w') /\
    map task_of (successful d ++ failed d) ≡ₚ docs.
Proof.
  split; [simpl; lia|].
  destruct (@process_all_partition sample_external sample_processor [1; 0]%nat sample_world)
    as (docs & w0 & d & w' & Hdisc & Hrun & Hperm & _); [simpl; lia|].
  exists docs, w0, d, w'. auto.
Defined.

(** X12. The memory limit and [skip_on_error] are advisory: the batch does
    not read them.  Two processors that differ in these two settings only
    discover the same tasks and run the same batch, result for result and
    world for world. *)
Theorem advisory_settings_unused `{External} (self : BatchProcessor.t) (mem : Q)
    (skip : bool) (sched : list nat) (w : world) :
  BatchProcessor.discover_documents (with_advisory self mem skip) w =
    BatchProcessor.discover_documents self w /\
  (forall documents,
      BatchProcessor.process_batch (with_advisory self mem skip) sched documents w =
      BatchProcessor.process_batch self sched documents w) /\
  BatchProcessor.process_all (with_advisory self mem skip) sched w =
    BatchProcessor.process_all self sched w.
Proof.
  assert (Hbatch : forall documents w0,
             BatchProcessor.process_batch (with_advisory self mem skip) sched documents w0 =
             BatchProcessor.process_batch self sched documents w0).
  { intros [|d docs] w0; [reflexivity|].
    unfold BatchProcessor.process_batch.
    apply bind_cong; [reflexivity|]. intros _ w1.
    apply bind_cong; [reflexivity|]. intros _ w2.
    apply bind_cong; [|reflexivity]. intros w3. apply as_completed_advisory. }
  split; [reflexivity|]. split; [intros documents; apply Hbatch|].
  unfold BatchProcessor.process_all.
  apply bind_cong; [reflexivity|]. intros [|d docs] w0; [reflexivity|].
  apply bind_cong; [|reflexivity]. intros w1. apply Hbatch.
Qed.

(** ** Directories that exist *)

Lemma makedirs_is_dir (whole p : path) :
  forall (n n' : node), makedirs whole n p = Ret n' -> Path_is_dir n' p = true.
Proof.
  unfold Path_is_dir. induction p as [|d p IH]; intros n n'.
  - destruct n; simpl; intros [= <-]. reflexivity.
  - destruct n as [|es]; simpl; [discriminate|].
    destruct (makedirs whole (default (Dir []) (entry d es)) p) as [child|e] eqn:Hm;
      [|discriminate].
    intros [= <-]. simpl. rewrite entry_set_entry_eq. apply (IH _ _ Hm).
Qed.

Lemma makedirs_dirs (whole p : path) :
  forall (n n' : node) (q : path),
    makedirs whole n p = Ret n' -> Path_is_dir n q = true -> Path_is_dir n' q = true.
Proof.
  unfold Path_is_dir. induction p as [|d p IH]; intros n n' q.
  - destruct n; simpl; intros [= <-]. auto.
  - destruct n as [|es]; simpl; [discriminate|].
    destruct (makedirs whole (default (Dir []) (entry d es)) p) as [child|e] eqn:Hm;
      [|discriminate].
    intros [= <-]. destruct q as [|k q]; [reflexivity|].
    rewrite !fs_lookup_cons. destruct (decide (d = k)) as [<-|Hne].
    + rewrite entry_set_entry_eq.
      destruct (entry d es); simpl in *; [apply (IH _ _ q Hm) | discriminate].
    + rewrite (entry_set_entry_ne _ _ _ _ Hne). auto.
Qed.

Lemma makedirs_existing (whole p : path) :
  forall (n : node), Path_is_dir n p = true -> makedirs whole n p = Ret n.
Proof.
  unfold Path_is_dir. induction p as [|d p IH]; intros n.
  - destruct n; simpl; [discriminate | reflexivity].
  - destruct n as [|es]; simpl; [discriminate|].
    destruct (entry d es) as [child|] eqn:Hd; [|discriminate].
    intros Hl. simpl. rewrite (IH _ Hl), (set_entry_same _ _ _ Hd). reflexivity.
Qed.

(** ** When a conversion succeeds *)

Section Success.
Context `{External}.

Lemma extract_text_of_file (c : converter_class) (ps : bool) (inp : path)
    (content : string) (w : world) :
  fs_lookup (fs w) inp = Some (File content) ->
  exists w', extract_text_of c ps inp w = (extracted c ps content, w') /\ fs w' = fs w.
Proof.
  intros Hl. pose proof (read_file_lookup inp inp _ _ Hl) as Hr.
  assert (Hlib : forall c', exists w',
             LibraryConverter._extract_text c' ps inp w = (parse c' ps content, w') /\
             fs w' = fs w).
  { intros c'. unfold LibraryConverter._extract_text. run. rewrite Hr.
    destruct (parse c' ps content); eauto. }
  destruct c; try apply Hlib.
  unfold extract_text_of, extracted, MOBIConverter._extract_text. run.
  rewrite Hr. simpl.
  destruct (mobi_extract content) as [[html|]|e]; simpl; rewrite ?Hr; simpl.
  - destruct (parse MOBI ps html); simpl; rewrite ?Hr; simpl; eauto.
  - eauto.
  - eauto.
Qed.

Lemma convert_single_file (self : BatchProcessor.t) (inp out : path) (w : world)
    (conv : BaseConverter.t) (content : string) (t1 : node) :
  ConverterFactory.get_converter inp (BatchProcessor.preserve_structure self) = Some conv ->
  makedirs (parent out) (fs w) (parent out) = Ret t1 ->
  fs_lookup (fs w) inp = Some (File content) ->
  exists w',
    let c := converted (BaseConverter.cls conv) (BatchProcessor.preserve_structure self)
                       inp out content t1 in
    BatchProcessor._convert_single self inp out w = (Ret c.1, w') /\ fs w' = c.2.
Proof.
  intros Hc Hmk Hl.
  assert (Hm : mkdir (parent out) w = (Ret tt, World t1 (log w)))
    by (unfold mkdir; rewrite Hmk; reflexivity).
  assert (Hl1 : fs_lookup t1 inp = Some (File content))
    by (apply (makedirs_files _ _ _ _ _ _ Hmk), Hl).
  assert (Hf : Path_is_file (fs (World t1 (log w))) inp = true)
    by (unfold Path_is_file; simpl; rewrite Hl1; reflexivity).
  destruct (extract_text_of_file (BaseConverter.cls conv)
              (BatchProcessor.preserve_structure self) inp content (World t1 (log w)) Hl1)
    as (w2 & Hx & Hfs2). simpl in Hfs2.
  assert (Hs : exists b err w3,
             BaseConverter.safe_convert conv inp out (World t1 (log w)) = (Ret (b, err), w3) /\
             (if b then Result inp out true None else Result inp out false err, fs w3) =
             converted (BaseConverter.cls conv) (BatchProcessor.preserve_structure self)
                       inp out content t1).
  { rewrite (safe_convert_valid _ _ _ _ Hf).
    rewrite (get_converter_registered _ _ _ Hc). simpl. unfold converted.
    destruct (extracted (BaseConverter.cls conv) (BatchProcessor.preserve_structure self)
                content) as [text|e].
    - rewrite (convert_with_extract_text _ _ _ _ _ _ _ Hx). case_bool_decide as Ht.
      + exists false. eexists _, _. split; [reflexivity|]. rewrite Hfs2. reflexivity.
      + destruct (write_file out text t1 out) as [t2|e] eqn:Hw.
        * rewrite (write_output_written text out w2 (World t2 (log w2))).
          -- exists true. eexists _, _. split; reflexivity.
          -- unfold bind, mkdir, open_write. rewrite Hfs2.
             rewrite (makedirs_again _ (parent out) _ _ _ Hmk). simpl. rewrite Hw. reflexivity.
        * rewrite (write_output_raised text out w2 (World t1 (log w2)) e).
          -- exists false. eexists _, _. split; reflexivity.
          -- unfold bind, mkdir, open_write. rewrite Hfs2.
             rewrite (makedirs_again _ (parent out) _ _ _ Hmk). simpl. rewrite Hw. reflexivity.
    - rewrite (convert_with_extract_raised _ _ _ _ _ _ _ Hx).
      exists false. eexists _, _. split; [reflexivity|]. simpl. rewrite Hfs2. reflexivity. }
  destruct Hs as (b & err & w3 & Hs & Hconv).
  rewrite (convert_single_converted _ _ _ _ _ _ _ _ _ Hc Hm Hs). cbv zeta.
  rewrite <- Hconv. destruct b; eexists; split; reflexivity.
Qed.

End Success.

Lemma write_file_dirs (whole : path) (text : string) (p : path) :
  forall (n n' : node) (q : path),
    write_file whole text n p = Ret n' -> Path_is_dir n q = true -> Path_is_dir n' q = true.
Proof.
  unfold Path_is_dir. induction p as [|d p IH]; intros n n' q.
  - destruct n; simpl; intros [= <-]. destruct q; simpl; [discriminate | auto].
  - destruct n as [|es]; simpl; [discriminate|].
    destruct (entry d es) as [child|] eqn:Hd.
    + destruct (write_file whole text child p) as [child'|e] eqn:Hw; [|discriminate].
      intros [= <-]. destruct q as [|k q]; [reflexivity|].
      rewrite !fs_lookup_cons. destruct (decide (d = k)) as [<-|Hne].
      * rewrite entry_set_entry_eq, Hd. apply (IH _ _ q Hw).
      * rewrite (entry_set_entry_ne _ _ _ _ Hne). auto.
    + destruct p; [|discriminate]. intros [= <-]. destruct q as [|k q]; [reflexivity|].
      rewrite !fs_lookup_cons. destruct (decide (d = k)) as [<-|Hne].
      * rewrite Hd. discriminate.
      * rewrite (entry_set_entry_ne _ _ _ _ Hne). auto.
Qed.

Lemma set_entry_twice (k : string) (n : node) (es : list (string * node)) :
  set_entry k n (set_entry k n es) = set_entry k n es.
Proof. apply set_entry_same, entry_set_entry_eq. Qed.

Lemma write_file_again (whole whole' : path) (text : string) (p : path) :
  forall (n n' : node),
    write_file whole text n p = Ret n' -> write_file whole' text n' p = Ret n'.
Proof.
  induction p as [|d p IH]; intros n n'.
  - destruct n; simpl; intros [= <-]. reflexivity.
  - destruct n as [|es]; simpl; [discriminate|].
    destruct (entry d es) as [child|] eqn:Hd.
    + destruct (write_file whole text child p) as [child'|e] eqn:Hw; [|discriminate].
      intros [= <-]. simpl. rewrite entry_set_entry_eq, (IH _ _ Hw), set_entry_twice.
      reflexivity.
    + destruct p; [|discriminate]. intros [= <-]. simpl.
      rewrite entry_set_entry_eq, set_entry_twice. reflexivity.
Qed.

Lemma conversion_succeeds_spec `{External} (self : BatchProcessor.t)
    (inp out : path) (w w' : world) (r : ConversionResult) :
  BatchProcessor._convert_single self inp out w = (Ret r, w') ->
  success r = true ->
  exists conv content text t1,
    ConverterFactory.get_converter inp (BatchProcessor.preserve_structure self) = Some conv /\
    makedirs (parent out) (fs w) (parent out) = Ret t1 /\
    fs_lookup (fs w) inp = Some (File content) /\
    extracted (BaseConverter.cls conv) (BatchProcessor.preserve_structure self) content =
      Ret text /\
    text <> "" /\
    write_file out text t1 out = Ret (fs w') /\
    r = Result inp out true None.
Proof.
  intros Hrun Hs.
  destruct (convert_single_cases self inp out w w' r Hrun)
    as [(_ & -> & _) | [(e & _ & _ & -> & _) | [(t1 & _ & _ & _ & -> & _)
        | [(t1 & _ & _ & _ & -> & _) | (t1 & text0 & [conv Hc] & Hmk & Hf & _ & _ & Hr0)]]]];
    try discriminate Hs.
  unfold Path_is_file in Hf.
  destruct (fs_lookup t1 inp) as [[content|]|] eqn:Hl1; try discriminate Hf.
  pose proof (proj1 (makedirs_files _ _ _ _ _ _ Hmk) Hl1) as Hl.
  destruct (convert_single_file self inp out w conv content t1 Hc Hmk Hl)
    as (w'' & Hrun' & Hfs). cbv zeta in Hrun', Hfs.
  rewrite Hrun in Hrun'. injection Hrun' as Hr Hw. subst w''.
  unfold converted in Hr, Hfs.
  destruct (extracted (BaseConverter.cls conv) (BatchProcessor.preserve_structure self)
              content) as [text|e] eqn:Hx;
    [|rewrite Hr in Hs; discriminate Hs].
  case_bool_decide as Ht; [rewrite Hr in Hs; discriminate Hs|].
  destruct (write_file out text t1 out) as [t2|e] eqn:Hwr;
    [|rewrite Hr in Hs; discriminate Hs].
  simpl in Hfs. exists conv, content, text, t1. rewrite Hfs. auto 8.
Qed.

(** X15. A conversion succeeds exactly when the suffix of the input has a
    converter, the directory of the output can be made, the input is a file,
    the extraction of its bytes returns a text that is not empty, and the
    output file can be written; the tree is then the one with the directory
    made and the text written.  The first part reads these facts off a
    successful result, the second gives the result from the facts. *)
Theorem conversion_succeeds_iff `{External} (self : BatchProcessor.t)
    (inp out : path) (w w' : world) (r : ConversionResult) :
  BatchProcessor._convert_single self inp out w = (Ret r, w') ->
  let ps := BatchProcessor.preserve_structure self in
  (success r = true ->
   exists conv content text t1,
     ConverterFactory.get_converter inp ps = Some conv /\
     makedirs (parent out) (fs w) (parent out) = Ret t1 /\
     fs_lookup (fs w) inp = Some (File content) /\
     extracted (BaseConverter.cls conv) ps content = Ret text /\
     text <> "" /\
     write_file out text t1 out = Ret (fs w')) /\
  (forall conv content text t1 t2,
     ConverterFactory.get_converter inp ps = Some conv ->
     makedirs (parent out) (fs w) (parent out) = Ret t1 ->
     fs_lookup (fs w) inp = Some (File content) ->
     extracted (BaseConverter.cls conv) ps content = Ret text ->
     text <> "" ->
     write_file out text t1 out = Ret t2 ->
     r = Result inp out true None /\ fs w' = t2).
Proof.
  intros Hrun ps. subst ps. split.
  - intros Hs.
    destruct (conversion_succeeds_spec self inp out w w' r Hrun Hs)
      as (conv & content & text & t1 & Hc & Hmk & Hl & Hx & Ht & Hwr & _).
    exists conv, content, text, t1. auto 7.
  - intros conv content text t1 t2 Hc Hmk Hl Hx Ht Hwr.
    destruct (convert_single_file self inp out w conv content t1 Hc Hmk Hl)
      as (w'' & Hrun' & Hfs). cbv zeta in Hrun', Hfs.
    rewrite Hrun in Hrun'. injection Hrun' as Hr Hw. subst w''.
    unfold converted in Hr, Hfs. rewrite Hx in Hr, Hfs.
    rewrite bool_decide_eq_false_2 in Hr, Hfs by exact Ht.
    rewrite Hwr in Hr, Hfs. auto.
Qed.

Lemma conversion_succeeds_iff_witness :
  exists r w',
    @BatchProcessor._convert_single sample_external sample_processor
      ["in"; "a.pdf"] ["out"; "a.txt"] sample_world = (Ret r, w') /\
    r = Result ["in"; "a.pdf"] ["out"; "a.txt"] true None /\
    fs w' = Dir [("in", Dir [("a.pdf", File "Hello"); ("b.xyz", File "data");
                             ("c.docx", File "corrupt")]);
                 ("out", Dir [("a.txt", File "Hello")])].
Proof.
  eexists _, _. split; [vm_compute; reflexivity|].
  eapply (proj2 (@conversion_succeeds_iff sample_external sample_processor
                   ["in"; "a.pdf"] ["out"; "a.txt"] sample_world _ _
                   ltac:(vm_compute; reflexivity))).
  - vm_compute. reflexivity.
  - vm_compute. reflexivity.
  - vm_compute. reflexivity.
  - vm_compute. reflexivity.
  - discriminate.
  - vm_compute. reflexivity.
Defined.

(** X16. Converting a document again (as a run with
    [overwrite_existing] does) changes nothing: when a conversion has
    succeeded and the output path is not the input path, the same conversion
    in the world it left succeeds again and leaves the tree as it is. *)
Theorem conversion_idempotent `{External} (self : BatchProcessor.t)
    (inp out : path) (w w' : world) (r : ConversionResult) :
  BatchProcessor._convert_single self inp out w = (Ret r, w') ->
  success r = true ->
  inp <> out ->
  exists w'',
    BatchProcessor._convert_single self inp out w' = (Ret r, w'') /\ fs w'' = fs w'.
Proof.
  intros Hrun Hs Hne.
  destruct (conversion_succeeds_spec self inp out w w' r Hrun Hs)
    as (conv & content & text & t1 & Hc & Hmk & Hl & Hx & Ht & Hwr & ->).
  assert (Hmk' : makedirs (parent out) (fs w') (parent out) = Ret (fs w')).
  { apply makedirs_existing. apply (write_file_dirs _ _ _ _ _ _ Hwr).
    apply (makedirs_is_dir _ _ _ _ Hmk). }
  assert (Hl' : fs_lookup (fs w') inp = Some (File content)).
  { apply (write_file_keeps _ _ _ _ _ _ _ Hwr Hne).
    apply (makedirs_files _ _ _ _ _ _ Hmk), Hl. }
  destruct (convert_single_file self inp out w' conv content (fs w') Hc Hmk' Hl')
    as (w'' & Hrun' & Hfs). cbv zeta in Hrun', Hfs.
  exists w''. unfold converted in Hrun', Hfs. rewrite Hx in Hrun', Hfs.
  rewrite bool_decide_eq_false_2 in Hrun', Hfs by exact Ht.
  rewrite (write_file_again _ out _ _ _ _ Hwr) in Hrun', Hfs. auto.
Qed.

Lemma conversion_idempotent_witness :
  exists r w' w'',
    @BatchProcessor._convert_single sample_external sample_processor
      ["in"; "a.pdf"] ["out"; "a.txt"] sample_world = (Ret r, w') /\
    @BatchProcessor._convert_single sample_external sample_processor
      ["in"; "a.pdf"] ["out"; "a.txt"] w' = (Ret r, w'') /\
    fs w'' = fs w'.
Proof.
  destruct (@conversion_idempotent sample_external sample_processor
              ["in"; "a.pdf"] ["out"; "a.txt"] sample_world _ _
              ltac:(vm_compute; reflexivity) ltac:(reflexivity) ltac:(discriminate))
    as (w'' & Hrun & Hfs).
  eexists _, _, w''. split; [vm_compute; reflexivity|]. split; [exact Hrun | exact Hfs].
Defined.

(** ** No document is discovered twice *)

Local Notation "'files_of'" :=
  (flat_map (fun '(root, _, files) => map (fun f : string => root ++ [f]) files))
  (only parsing).











(** ** What a conversion writes, on every platform *)

Section Frames.
Context `{os : Platform}.
#[local] Existing Instance ext.
Variable out : path.

Lemma same_files_refl (t : node) : same_files_but out t t.
Proof. intros q c _. reflexivity. Qed.

Lemma same_files_trans (t1 t2 t3 : node) :
  same_files_but out t1 t2 -> same_files_but out t2 t3 -> same_files_but out t1 t3.
Proof. intros H12 H23 q c Hq. rewrite (H23 q c Hq). apply (H12 q c Hq). Qed.

Lemma writes_only_fs {A} (m : M A) :
  (forall w o w', m w = (o, w') -> fs w' = fs w) -> writes_only out m.
Proof. intros Hm w o w' E. rewrite (Hm _ _ _ E). apply same_files_refl. Qed.

Lemma writes_only_ret {A} (a : A) : writes_only out (ret a).
Proof. apply writes_only_fs. intros w o w' [= _ <-]. reflexivity. Qed.

Lemma writes_only_raise {A} (e : exn) : writes_only out (@raise A e).
Proof. apply writes_only_fs. intros w o w' [= _ <-]. reflexivity. Qed.

Lemma writes_only_lift {A} (o : outcome A) : writes_only out (lift o).
Proof. apply writes_only_fs. intros w o' w' [= _ <-]. reflexivity. Qed.

Lemma writes_only_logger (lv : level) (msg : string) : writes_only out (logger lv msg).
Proof. apply writes_only_fs. intros w o w' [= _ <-]. reflexivity. Qed.

Lemma writes_only_exists (p : path) : writes_only out (exists_ p).
Proof.
  apply writes_only_fs. intros w o w'. unfold exists_.
  destruct (os_error Stat p); intros [= _ <-]; reflexivity.
Qed.

Lemma writes_only_is_file (p : path) : writes_only out (is_file p).
Proof.
  apply writes_only_fs. intros w o w'. unfold is_file.
  destruct (os_error Stat p); intros [= _ <-]; reflexivity.
Qed.

Lemma writes_only_open_read (p : path) : writes_only out (open_read p).
Proof.
  apply writes_only_fs. intros w o w'. unfold open_read.
  destruct (os_error OpenRead p); intros [= _ <-]; reflexivity.
Qed.

Lemma writes_only_bind {A B} (m : M A) (k : A -> M B) :
  writes_only out m -> (forall a, writes_only out (k a)) -> writes_only out (bind m k).
Proof.
  intros Hm Hk w o w'. unfold bind.
  destruct (m w) as [[a|e] w1] eqn:E.
  - intros Ek. eapply same_files_trans; [eapply Hm, E | eapply Hk, Ek].
  - intros [= _ <-]. eapply Hm, E.
Qed.

Lemma writes_only_try {A} (body : M A) (handler : exn -> M A) :
  writes_only out body -> (forall e, writes_only out (handler e)) ->
  writes_only out (try_except body handler).
Proof.
  intros Hb Hh w o w'. unfold try_except.
  destruct (body w) as [[a|e] w1] eqn:E.
  - intros [= _ <-]. eapply Hb, E.
  - intros Eh. eapply same_files_trans; [eapply Hb, E | eapply Hh, Eh].
Qed.

Lemma writes_only_temporary_directory {A} (body : M A) :
  writes_only out body -> writes_only out (temporary_directory body).
Proof.
  intros Hb w o w'. unfold temporary_directory.
  destruct mkdtemp_error; [intros [= _ <-]; apply same_files_refl|].
  destruct (body w) as [o1 w1] eqn:E.
  destruct rmtree_error; intros [= _ <-]; eapply Hb, E.
Qed.

Lemma writes_only_mkdir (p : path) : writes_only out (mkdir p).
Proof.
  intros w o w'. unfold mkdir.
  destruct (os_error Mkdir p); [intros [= _ <-]; apply same_files_refl|].
  destruct (makedirs p (fs w) p) as [t|e] eqn:Hmk; intros [= _ <-];
    [|apply same_files_refl].
  intros q c _. apply (makedirs_files _ _ _ _ _ _ Hmk).
Qed.

Lemma write_file_same_files (text : string) (t t' : node) :
  write_file out text t out = Ret t' -> same_files_but out t t'.
Proof.
  intros Hwr q c Hq. split.
  - intros Hl. destruct (write_file_files _ _ _ _ _ _ _ Hwr Hl); [contradiction | assumption].
  - apply (write_file_keeps _ _ _ _ _ _ _ Hwr Hq).
Qed.

Lemma writes_only_open_write (text : string) : writes_only out (open_write out text).
Proof.
  intros w o w'. unfold open_write.
  destruct (os_error OpenWrite out); [intros [= _ <-]; apply same_files_refl|].
  destruct (write_error out text) as [[e remains]|].
  - destruct (write_file out remains (fs w) out) as [t|e'] eqn:Hwr; intros [= _ <-];
      [apply (write_file_same_files _ _ _ Hwr) | apply same_files_refl].
  - destruct (write_file out text (fs w) out) as [t|e'] eqn:Hwr; intros [= _ <-];
      [apply (write_file_same_files _ _ _ Hwr) | apply same_files_refl].
Qed.

End Frames.

(** The rules above, applied along the text of a function. *)
Ltac frames :=
  repeat first
    [ simple apply writes_only_ret | simple apply writes_only_raise
    | simple apply writes_only_lift | simple apply writes_only_logger
    | simple apply writes_only_exists | simple apply writes_only_is_file
    | simple apply writes_only_open_read | simple apply writes_only_mkdir
    | simple apply writes_only_open_write
    | simple apply writes_only_bind; [|intros ?]
    | simple apply writes_only_try; [|intros ?]
    | simple apply writes_only_temporary_directory
    | match goal with
      | |- writes_only _ (if ?b then _ else _) => destruct b
      | |- writes_only _ (match ?x with Some _ => _ | None => _ end) => destruct x
      | |- writes_only _ (let '(_, _) := ?x in _) => destruct x
      end
    | assumption ].

Section Written.
Context `{os : Platform}.
#[local] Existing Instance ext.

Lemma writes_only_write_output (text : string) (out : path) :
  writes_only out (BaseConverter._write_output text out).
Proof. unfold BaseConverter._write_output. frames. Qed.

Lemma writes_only_validate_input (out inp : path) :
  writes_only out (BaseConverter._validate_input inp).
Proof. unfold BaseConverter._validate_input. frames. Qed.

Lemma writes_only_extract_text (c : converter_class) (ps : bool) (out inp : path) :
  writes_only out (extract_text_of c ps inp).
Proof.
  assert (Hlib : forall c', writes_only out (LibraryConverter._extract_text c' ps inp))
    by (intros c'; unfold LibraryConverter._extract_text; frames).
  destruct c; try apply Hlib.
  unfold extract_text_of, MOBIConverter._extract_text. frames.
Qed.

Lemma writes_only_convert_with (c : converter_class) (extract : path -> M string)
    (inp out : path) :
  writes_only out (extract inp) ->
  writes_only out (BaseConverter.convert_with c extract inp out).
Proof.
  intros Hx. unfold BaseConverter.convert_with. frames. apply writes_only_write_output.
Qed.

Lemma writes_only_safe_convert (conv : BaseConverter.t) (inp out : path) :
  writes_only out (BaseConverter.convert conv inp out) ->
  writes_only out (BaseConverter.safe_convert conv inp out).
Proof.
  intros Hc. unfold BaseConverter.safe_convert. frames.
  apply writes_only_validate_input.
Qed.

Lemma writes_only_convert_single (self : BatchProcessor.t) (inp out : path) :
  writes_only out (BatchProcessor._convert_single self inp out).
Proof.
  unfold BatchProcessor._convert_single.
  destruct (ConverterFactory.get_converter inp (BatchProcessor.preserve_structure self))
    as [conv|] eqn:Hc; frames.
  apply writes_only_safe_convert.
  rewrite (get_converter_registered _ _ _ Hc). simpl.
  apply writes_only_convert_with, writes_only_extract_text.
Qed.

End Written.
